(** * GenerateActivity: a shallow embedding of [generate_activity.py]

    The script walks a range of calendar days, draws a number of commits for
    each day and, for each commit, rewrites a scratch file and calls [git]
    with back-dated author and committer timestamps.

    The embedding has three layers:
    - [Datetime]: the part of Python's [datetime.date] the script uses
      (construction, comparison, adding one day, subtraction, [str]);
    - [Runtime]: the interpreter and operating-system services the script
      calls ([random], [os], [subprocess], [time], [print], [sys.exit]),
      as a state-and-exception monad over an explicit world whose answers
      come from an oracle;
    - [GenerateActivity]: the three parts of the script itself ([commit],
      [generate_commits] and the [__main__] block), in the order and shape
      of the source. *)

From Stdlib Require Import ZArith Lia ZifyBool String Ascii List.
From Stdlib.Strings Require Import Byte.
From stdpp Require Import gmap strings list.

Open Scope Z_scope.

(** ** Text formatting *)

Module Format.

(** The decimal digit [d] (0..9) as a character. *)
Definition digit_char (d : Z) : ascii := ascii_of_nat (48 + Z.to_nat d).

(** Decimal numeral of a non-negative integer, most significant digit first;
    [fuel] bounds the number of digits. *)
Fixpoint decimal_aux (fuel : nat) (n : Z) (acc : string) : string :=
  match fuel with
  | O => acc
  | S fuel' =>
      let acc' := String (digit_char (n mod 10)) acc in
      if n / 10 =? 0 then acc' else decimal_aux fuel' (n / 10) acc'
  end.

Definition decimal (n : Z) : string :=
  decimal_aux (S (Z.to_nat (Z.log2 n))) n EmptyString.

(** [width] copies of the character ['0']. *)
Fixpoint zeros (width : nat) : string :=
  match width with
  | O => EmptyString
  | S w => String "0"%char (zeros w)
  end.

(** Left padding with zeros up to [width] characters; longer numerals are
    left as they are. *)
Definition zfill (width : nat) (s : string) : string :=
  zeros (width - String.length s) +:+ s.

(** Python's [format(n, "0<width>d")] (the [{n:02d}] of an f-string and the
    [%04d] of the printf-style operator): sign first, then zero padding. *)
Definition format_0d (width : nat) (n : Z) : string :=
  if n <? 0 then String "-"%char (zfill (width - 1) (decimal (- n)))
  else zfill width (decimal n).

(** [str(n)] for an integer. *)
Definition str_int (n : Z) : string :=
  if n <? 0 then String "-"%char (decimal (- n)) else decimal n.

(** Lower-case hexadecimal digit. *)
Definition hex_char (d : N) : ascii :=
  if (d <? 10)%N then ascii_of_N (48 + d) else ascii_of_N (87 + d).

(** [bytes.hex()]: two lower-case hexadecimal digits per byte. *)
Fixpoint hex (bs : list byte) : string :=
  match bs with
  | [] => EmptyString
  | b :: bs' =>
      let n := Byte.to_N b in
      String (hex_char (n / 16)) (String (hex_char (n mod 16)) (hex bs'))
  end.

(** Is [c] one of the characters ['0'] .. ['9']? *)
Definition is_digit (c : ascii) : bool :=
  let n := nat_of_ascii c in (48 <=? n)%nat && (n <=? 57)%nat.

End Format.

(** ** The calendar: Python's [datetime.date] *)

Module Datetime.

Definition MINYEAR : Z := 1.
Definition MAXYEAR : Z := 9999.

(** [date.max.toordinal()], the ordinal of 9999-12-31. *)
Definition _MAXORDINAL : Z := 3652059.

(** A [date] object holds a year, a month and a day. *)
Record date : Type := mkdate { year : Z; month : Z; day : Z }.

(** Index 0 of both tables is a placeholder, as in CPython. *)
Definition _DAYS_IN_MONTH : list Z :=
  [-1; 31; 28; 31; 30; 31; 30; 31; 31; 30; 31; 30; 31].

Definition _DAYS_BEFORE_MONTH : list Z :=
  [-1; 0; 31; 59; 90; 120; 151; 181; 212; 243; 273; 304; 334].

(** Table access [table[i]]; the callers only pass months 1..12. *)
Definition table_get (table : list Z) (i : Z) : Z := nth (Z.to_nat i) table 0.

Definition _is_leap (y : Z) : bool :=
  (y mod 4 =? 0) && (negb (y mod 100 =? 0) || (y mod 400 =? 0)).

Definition _days_before_year (y : Z) : Z :=
  let y' := y - 1 in y' * 365 + y' / 4 - y' / 100 + y' / 400.

Definition _days_in_month (y m : Z) : Z :=
  if (m =? 2) && _is_leap y then 29 else table_get _DAYS_IN_MONTH m.

Definition _days_before_month (y m : Z) : Z :=
  table_get _DAYS_BEFORE_MONTH m + (if (m >? 2) && _is_leap y then 1 else 0).

Definition _ymd2ord (y m d : Z) : Z :=
  _days_before_year y + _days_before_month y m + d.

Definition _DI400Y : Z := Eval vm_compute in _days_before_year 401.
Definition _DI100Y : Z := Eval vm_compute in _days_before_year 101.
Definition _DI4Y : Z := Eval vm_compute in _days_before_year 5.

(** [_ord2ymd]: ordinal to (year, month, day), with 0001-01-01 as day 1. *)
Definition _ord2ymd (n : Z) : Z * Z * Z :=
  let n := n - 1 in
  let n400 := n / _DI400Y in
  let n := n mod _DI400Y in
  let year := n400 * 400 + 1 in
  let n100 := n / _DI100Y in
  let n := n mod _DI100Y in
  let n4 := n / _DI4Y in
  let n := n mod _DI4Y in
  let n1 := n / 365 in
  let n := n mod 365 in
  let year := year + (n100 * 100 + n4 * 4 + n1) in
  if (n1 =? 4) || (n100 =? 4) then (year - 1, 12, 31)
  else
    let leapyear := (n1 =? 3) && (negb (n4 =? 24) || (n100 =? 3)) in
    let month := Z.shiftr (n + 50) 5 in
    let preceding :=
      table_get _DAYS_BEFORE_MONTH month
      + (if (month >? 2) && leapyear then 1 else 0) in
    if preceding >? n
    then
      let month := month - 1 in
      let preceding :=
        preceding - (table_get _DAYS_IN_MONTH month
                     + (if (month =? 2) && leapyear then 1 else 0)) in
      (year, month, n - preceding + 1)
    else (year, month, n - preceding + 1).

(** The check made by the [date(year, month, day)] constructor: every
    [date] object of a running program satisfies it. *)
Definition valid_date (d : date) : bool :=
  (MINYEAR <=? year d) && (year d <=? MAXYEAR)
  && (1 <=? month d) && (month d <=? 12)
  && (1 <=? day d) && (day d <=? _days_in_month (year d) (month d)).

Definition toordinal (d : date) : Z := _ymd2ord (year d) (month d) (day d).

Definition fromordinal (n : Z) : date :=
  let '(y, m, d) := _ord2ymd n in mkdate y m d.

(** [a <= b]: comparison of the (year, month, day) triples. *)
Definition date_le (a b : date) : bool :=
  if year a =? year b
  then if month a =? month b then day a <=? day b else month a <? month b
  else year a <? year b.

(** [(a - b).days]. *)
Definition days_between (a b : date) : Z := toordinal a - toordinal b.

(** [d + timedelta(days=k)]: [None] stands for the [OverflowError] raised
    when the result leaves the range of [date]. *)
Definition date_add_days (d : date) (k : Z) : option date :=
  let o := toordinal d + k in
  if (0 <? o) && (o <=? _MAXORDINAL) then Some (fromordinal o) else None.

(** [str(d)], that is [d.isoformat()]: ["%04d-%02d-%02d"]. *)
Definition isoformat (d : date) : string :=
  Format.format_0d 4 (year d) +:+ "-" +:+ Format.format_0d 2 (month d)
  +:+ "-" +:+ Format.format_0d 2 (day d).

End Datetime.

Import Format Datetime.

(** ** The Python runtime and the operating system *)

(** The failures the script provides for come from the oracle: an error
    when the scratch file is opened or written, a program that is not
    found, a program that ends with a non-zero status.  What the script
    takes to work does work: printing, sleeping, copying a dictionary,
    removing a file that exists. *)

Module Runtime.

(** The exceptions the script can meet.  [SystemExit] is the only one that
    is not an [Exception] (it derives from [BaseException]), so that
    [except Exception] lets it through. *)
Inductive exn : Type :=
  | OSError (msg : string)
  | FileNotFoundError (msg : string)
  | CalledProcessError (cmd : list string) (returncode : Z)
  | ValueError (msg : string)
  | OverflowError (msg : string)
  | SystemExit (code : Z).

Definition is_Exception (e : exn) : bool :=
  match e with SystemExit _ => false | _ => true end.

(** [repr] of a list of strings, for arguments without quotes, backslashes
    or control characters (all the script passes). *)
Fixpoint repr_items (l : list string) : string :=
  match l with
  | [] => EmptyString
  | [s] => "'" +:+ s +:+ "'"
  | s :: l' => "'" +:+ s +:+ "', " +:+ repr_items l'
  end.

Definition repr_list (l : list string) : string := "[" +:+ repr_items l +:+ "]".

(** [str(e)].  For a process killed by a signal CPython prints the name of
    the signal where it knows one; the model keeps the number. *)
Definition str_exn (e : exn) : string :=
  match e with
  | OSError msg | FileNotFoundError msg | ValueError msg | OverflowError msg =>
      msg
  | CalledProcessError cmd rc =>
      if rc <? 0
      then "Command '" +:+ repr_list cmd +:+ "' died with unknown signal "
           +:+ Format.str_int (- rc) +:+ "."
      else "Command '" +:+ repr_list cmd
           +:+ "' returned non-zero exit status " +:+ Format.str_int rc +:+ "."
  | SystemExit code => Format.str_int code
  end.

(** A dictionary object is a finite map; the store maps references to the
    objects they denote, so that two names for one dictionary share its
    updates and a copy does not. *)
Definition loc : Type := nat.

(** The reference held by [os.environ]. *)
Definition os_environ : loc := 0%nat.

(** The state of the process and of its surroundings.
    - [heap]: the dictionary objects;
    - [fs]: the files and directories below the working directory, by
      path, with their contents (a directory is an entry as well);
    - [clock]: how many questions the oracle has answered. *)
Record World : Type := mkWorld {
  heap : gmap loc (gmap string string);
  fs : gmap string string;
  clock : nat
}.

(** What the program cannot decide: the answers of the pseudo-random
    generator, of the entropy source, of the file system to a write, and of
    the program that is run.  Every answer is indexed by the clock. *)
Record Oracle : Type := mkOracle {
  random_bits : nat -> Z;
  urandom_byte : nat -> byte;
  io_error : nat -> option string;
  executable_found : nat -> string -> bool;
  execute :
    nat -> list string -> gmap string string -> gmap string string ->
    Z * gmap string string
}.

(** The actions of the process that are visible from outside, each with the
    answer it got.  For [Ran] the answer is [None] when the executable was
    not found, and otherwise the exit status of the program with the files
    as it left them.  [DayBegan] is a ghost event: it marks the start of
    an iteration of the day loop and stands for no action. *)
Inductive event : Type :=
  | Printed (line : string)
  | Opened (path : string) (error : option string)
  | Written (path : string) (data : string) (error : option string)
  | Ran (args : list string) (env : gmap string string)
        (stdout_devnull stderr_devnull : bool)
        (answer : option (Z * gmap string string))
  | Slept (milliseconds : Z)
  | Removed (path : string)
  | DayBegan (current_date : Datetime.date).

(** How a computation ends: with a value, with an exception, or with the
    fuel of a loop used up (which the theorems below rule out). *)
Inductive result (A : Type) : Type :=
  | Ret (a : A)
  | Raise (e : exn)
  | OutOfFuel.
Arguments Ret {A} a.
Arguments Raise {A} e.
Arguments OutOfFuel {A}.

Record run (A : Type) : Type := mkrun {
  outcome : result A;
  world : World;
  events : list event
}.
Arguments mkrun {A} _ _ _.
Arguments outcome {A} _.
Arguments world {A} _.
Arguments events {A} _.

Definition M (A : Type) : Type := Oracle -> World -> run A.

Definition ret {A} (a : A) : M A := fun _ w => mkrun (Ret a) w [].

Definition bind {A B} (k : A -> M B) (m : M A) : M B := fun o w =>
  let r := m o w in
  match outcome r with
  | Ret a =>
      let r' := k a o (world r) in
      mkrun (outcome r') (world r') (events r ++ events r')
  | Raise e => mkrun (Raise e) (world r) (events r)
  | OutOfFuel => mkrun OutOfFuel (world r) (events r)
  end.

#[global] Instance M_ret : MRet M := @ret.
#[global] Instance M_bind : MBind M := @bind.

Definition raise {A} (e : exn) : M A := fun _ w => mkrun (Raise e) w [].

Definition out_of_fuel {A} : M A := fun _ w => mkrun OutOfFuel w [].

(** [try: body except ...: handler]: [handler e] is [None] when no
    [except] clause matches [e], which then propagates. *)
Definition try_except {A} (body : M A) (handler : exn -> option (M A)) : M A :=
  fun o w =>
    let r := body o w in
    match outcome r with
    | Raise e =>
        match handler e with
        | Some h =>
            let r' := h o (world r) in
            mkrun (outcome r') (world r') (events r ++ events r')
        | None => r
        end
    | _ => r
    end.

Definition emit (e : event) : M unit := fun _ w => mkrun (Ret tt) w [e].

Definition tick (w : World) : World :=
  mkWorld (heap w) (fs w) (S (clock w)).

Definition set_fs (f : gmap string string) (w : World) : World :=
  mkWorld (heap w) f (clock w).

Definition set_heap (h : gmap loc (gmap string string)) (w : World) : World :=
  mkWorld h (fs w) (clock w).

(** [print(line)]. *)
Definition print (line : string) : M unit := emit (Printed line).

(** [sys.exit(code)]. *)
Definition sys_exit {A} (code : Z) : M A := raise (SystemExit code).

(** [time.sleep]; the duration is kept in milliseconds. *)
Definition sleep (milliseconds : Z) : M unit := emit (Slept milliseconds).

(** [random.randint(a, b)]: an integer [n] with [a <= n <= b], or
    [ValueError] for an empty range. *)
Definition randint (a b : Z) : M Z := fun o w =>
  if b <? a
  then mkrun (Raise (ValueError "empty range for randrange()")) w []
  else mkrun (Ret (a + random_bits o (clock w) mod (b - a + 1))) (tick w) [].

(** [os.urandom(n)]. *)
Definition os_urandom (n : nat) : M (list byte) := fun o w =>
  mkrun (Ret (map (fun i => urandom_byte o (i + clock w)%nat) (seq 0 n)))
        (mkWorld (heap w) (fs w) (n + clock w)%nat) [].

(** [open(path, "w")]: the file is created or truncated, or [OSError]. *)
Definition open_w (path : string) : M unit := fun o w =>
  match io_error o (clock w) with
  | Some msg => mkrun (Raise (OSError msg)) (tick w) [Opened path (Some msg)]
  | None =>
      mkrun (Ret tt) (tick (set_fs (<[path := EmptyString]> (fs w)) w))
            [Opened path None]
  end.

(** [f.write(data)] followed by the close at the end of the [with] block. *)
Definition file_write (path : string) (data : string) : M unit := fun o w =>
  match io_error o (clock w) with
  | Some msg =>
      mkrun (Raise (OSError msg)) (tick w) [Written path data (Some msg)]
  | None =>
      mkrun (Ret tt)
            (tick (set_fs (<[path := default EmptyString (fs w !! path) +:+ data]>
                             (fs w)) w))
            [Written path data None]
  end.

(** [os.path.join] of two relative components. *)
Definition path_join (a b : string) : string := a +:+ "/" +:+ b.

(** [os.path.exists(path)]. *)
Definition path_exists (path : string) : M bool := fun _ w =>
  mkrun (Ret (bool_decide (is_Some (fs w !! path)))) w [].

(** [os.remove(path)]. *)
Definition os_remove (path : string) : M unit := fun _ w =>
  match fs w !! path with
  | Some _ => mkrun (Ret tt) (set_fs (delete path (fs w)) w) [Removed path]
  | None => mkrun (Raise (FileNotFoundError path)) w []
  end.

(** The dictionary a reference denotes. *)
Definition deref (w : World) (l : loc) : gmap string string :=
  default ∅ (heap w !! l).

(** [d.copy()]: a new object with the same items, at a reference that
    denotes no other object ([os.environ] exists in every process). *)
Definition dict_copy (l : loc) : M loc := fun _ w =>
  let l' := fresh ({[os_environ]} ∪ dom (heap w)) in
  mkrun (Ret l') (set_heap (<[l' := deref w l]> (heap w)) w) [].

(** [d[key] = value]: the object is updated in place. *)
Definition dict_setitem (l : loc) (key value : string) : M unit := fun _ w =>
  mkrun (Ret tt) (set_heap (<[l := <[key := value]> (deref w l)]> (heap w)) w) [].

(** [subprocess.run(args, check=..., env=..., stdout=..., stderr=...)].
    Without [env] the child inherits [os.environ]. The executable is looked
    up first: when it is missing nothing runs and [FileNotFoundError] is
    raised; otherwise the program runs to its end, may change the files,
    and a non-zero status raises [CalledProcessError] under [check]. *)
Definition subprocess_run (args : list string) (check : bool)
    (env : option loc) (stdout_devnull stderr_devnull : bool) : M unit :=
  fun o w =>
    let environment := deref w (default os_environ env) in
    let program := default EmptyString (head args) in
    if executable_found o (clock w) program
    then
      let '(rc, fs') := execute o (clock w) args environment (fs w) in
      mkrun (if check && negb (rc =? 0)
             then Raise (CalledProcessError args rc) else Ret tt)
            (tick (set_fs fs' w))
            [Ran args environment stdout_devnull stderr_devnull
                 (Some (rc, fs'))]
    else
      mkrun (Raise (FileNotFoundError program)) (tick w)
            [Ran args environment stdout_devnull stderr_devnull None].

(** [for x in xs: body(x)]. *)
Fixpoint for_each {A} (xs : list A) (body : A -> M unit) : M unit :=
  match xs with
  | [] => mret tt
  | x :: xs' => body x ;; for_each xs' body
  end.

(** [range(n)]. *)
Definition range (n : Z) : list Z := seqZ 0 n.

(** Ghost: mark the start of an iteration of the day loop. *)
Definition day_begins (current_date : Datetime.date) : M unit :=
  emit (DayBegan current_date).

(** The exit status of the process when a run of the whole script ends
    with [r]: 0 after a normal end, the code of [sys.exit], and 1 after a
    traceback. *)
Definition exit_status (r : result unit) : option Z :=
  match r with
  | Ret _ => Some 0
  | Raise (SystemExit code) => Some code
  | Raise _ => Some 1
  | OutOfFuel => None
  end.

End Runtime.

Import Runtime.

(** ** The script *)

Module GenerateActivity.

(** --- CONFIGURATION --- *)
Definition START_DATE : date := mkdate 2023 5 12.
Definition END_DATE : date := mkdate 2023 8 9.
Definition MIN_COMMITS_PER_DAY : Z := 0.
Definition MAX_COMMITS_PER_DAY : Z := 5.

Definition newline : string := String "010"%char EmptyString.

(** [timedelta(days=n)], as a number of days. *)
Definition timedelta (days : Z) : Z := days.

(** [d + delta], raising [OverflowError] beyond [date.max]. *)
Definition date_plus (d : date) (delta : Z) : M date :=
  match date_add_days d delta with
  | Some d' => mret d'
  | None => raise (OverflowError "date value out of range")
  end.

(** [commit(commit_date, msg)]: one [git commit] with a back-dated
    timestamp. *)
Definition commit (commit_date : date) (msg : string) : M unit :=
  hours ← randint 9 17;
  minutes ← randint 0 59;
  seconds ← randint 0 59;
  let time_str :=
    format_0d 2 hours +:+ ":" +:+ format_0d 2 minutes +:+ ":"
    +:+ format_0d 2 seconds in
  let t := isoformat commit_date +:+ " " +:+ time_str in
  (* 1. the scratch file *)
  written ← try_except
    (open_w ".tmpfile";;
     payload ← os_urandom 8;
     file_write ".tmpfile" (msg +:+ newline +:+ hex payload +:+ newline);;
     mret true)
    (fun e =>
       if is_Exception e
       then Some (print ("Error writing to .tmpfile: " +:+ str_exn e);;
                  mret false)
       else None);
  if negb written then mret tt (* return *) else
  (* 2. the environment of the child *)
  env ← dict_copy os_environ;
  dict_setitem env "GIT_COMMITTER_DATE" t;;
  dict_setitem env "GIT_AUTHOR_DATE" t;;
  (* 3. git add, git commit *)
  try_except
    (subprocess_run ["git"; "add"; ".tmpfile"] true None true true;;
     subprocess_run ["git"; "commit"; "-m"; msg] true (Some env) true true;;
     sleep 10)
    (fun e =>
       match e with
       | CalledProcessError _ _ =>
           Some (print ("Git command failed for date "
                        +:+ isoformat commit_date +:+ ": " +:+ str_exn e);;
                 let lock_path := path_join ".git" "index.lock" in
                 locked ← path_exists lock_path;
                 if locked : bool
                 then os_remove lock_path;;
                      print "Removed .git/index.lock. Attempting to proceed..."
                 else mret tt)
       | FileNotFoundError _ =>
           Some (print "CRITICAL ERROR: 'git' executable not found. Ensure Git is installed and in your PATH.";;
                 sys_exit 1)
       | _ => None
       end).

(** The message of commit number [i] (counted from 0) out of
    [num_commits]. *)
Definition commit_message (i num_commits : Z) (current_date : date) : string :=
  "Simulated activity commit " +:+ str_int (i + 1) +:+ "/"
  +:+ str_int num_commits +:+ " on " +:+ isoformat current_date.

(** One iteration of the day loop, up to the update of the cursor. *)
Definition process_day (current_date : date) : M unit :=
  day_begins current_date;;
  num_commits ← randint MIN_COMMITS_PER_DAY MAX_COMMITS_PER_DAY;
  (if num_commits >? 0
   then print ("--> " +:+ isoformat current_date +:+ ": Generating "
               +:+ str_int num_commits +:+ " commits...")
   else mret tt);;
  for_each (range num_commits)
    (fun i => commit current_date (commit_message i num_commits current_date)).

(** [while current_date <= end_date: ...; current_date += delta].  The
    loop condition is tested before the fuel is looked at. *)
Fixpoint while_days (fuel : nat) (current_date end_date : date) (delta : Z)
    : M unit :=
  if date_le current_date end_date
  then
    match fuel with
    | O => out_of_fuel
    | S fuel' =>
        process_day current_date;;
        next_date ← date_plus current_date delta;
        while_days fuel' next_date end_date delta
    end
  else mret tt.

(** [generate_commits(start_date, end_date)].  The loop gets one unit of
    fuel for each day from [start_date] to [end_date]. *)
Definition generate_commits (start_date end_date : date) : M unit :=
  let current_date := start_date in
  let delta := timedelta 1 in
  print ("Starting commit generation from " +:+ isoformat start_date
         +:+ " to " +:+ isoformat end_date +:+ "...");;
  while_days (Z.to_nat (days_between end_date start_date + 1))
             current_date end_date delta;;
  print "Generation complete. Don't forget to push your changes to the remote repository!".

(** The [if __name__ == "__main__":] block. *)
Definition main : M unit :=
  initialized ← path_exists ".git";
  (if negb initialized
   then
     print "WARNING: Current folder is not a Git repository. Initializing...";;
     try_except
       (subprocess_run ["git"; "init"] true None true false;;
        print "Git repository successfully initialized.")
       (fun e =>
          match e with
          | CalledProcessError _ _ =>
              Some (print "CRITICAL ERROR: Failed to initialize Git repository.";;
                    sys_exit 1)
          | FileNotFoundError _ =>
              Some (print "CRITICAL ERROR: 'git' executable not found during initialization. Ensure Git is in your PATH.";;
                    sys_exit 1)
          | _ => None
          end)
   else mret tt);;
  generate_commits START_DATE END_DATE.

End GenerateActivity.

Import GenerateActivity.


(** * Vocabulary of the specification *)

(** ** Calendar *)

(** The month and the day of the [n]-th day (from 0) of a year, as computed
    at the end of [_ord2ymd]. *)
Definition month_and_day (n : Z) (leapyear : bool) : Z * Z :=
  let month := Z.shiftr (n + 50) 5 in
  let preceding :=
    table_get _DAYS_BEFORE_MONTH month
    + (if (month >? 2) && leapyear then 1 else 0) in
  if preceding >? n
  then
    let month := month - 1 in
    let preceding :=
      preceding - (table_get _DAYS_IN_MONTH month
                   + (if (month =? 2) && leapyear then 1 else 0)) in
    (month, n - preceding + 1)
  else (month, n - preceding + 1).

(** Days before and in a month, with the leap flag made explicit. *)
Definition before_month (leap : bool) (m : Z) : Z :=
  table_get _DAYS_BEFORE_MONTH m + (if (m >? 2) && leap then 1 else 0).

Definition in_month (leap : bool) (m : Z) : Z :=
  if (m =? 2) && leap then 29 else table_get _DAYS_IN_MONTH m.

Definition month_and_day_ok (leapyear : bool) (n : Z) : bool :=
  let '(m, d) := month_and_day n leapyear in
  (1 <=? m) && (m <=? 12) && (1 <=? d) && (d <=? in_month leapyear m)
  && (before_month leapyear m + d =? n + 1).

Definition months_ok (leap : bool) (m1 : Z) : bool :=
  (0 <=? before_month leap m1) && (1 <=? in_month leap m1)
  && (in_month leap m1 <=? 31)
  && (before_month leap m1 + in_month leap m1
      <=? 365 + (if leap then 1 else 0))
  && forallb (fun m2 =>
                (m2 <=? m1)
                || (before_month leap m1 + in_month leap m1
                    <=? before_month leap m2))
             (seqZ 1 12).

(** The days from [start_date] to [end_date], both included. *)
Definition date_range (start_date end_date : date) : list date :=
  fromordinal <$> seqZ (toordinal start_date)
                       (days_between end_date start_date + 1).

(** ** Timestamps *)

Definition digit_value (c : ascii) : Z := Z.of_nat (nat_of_ascii c) - 48.

(** The number a list of decimal digits denotes. *)
Definition digits_value (cs : list ascii) : option Z :=
  if forallb is_digit cs
  then Some (fold_left (fun acc c => 10 * acc + digit_value c) cs 0)
  else None.

(** Reads a string of the exact shape [YYYY-MM-DD HH:MM:SS] (19 characters,
    digits and separators in their places) into its six numbers. *)
Definition parse_timestamp (s : string) : option (Z * Z * Z * Z * Z * Z) :=
  match list_ascii_of_string s with
  | [y1; y2; y3; y4; a; m1; m2; b; d1; d2; sp; h1; h2; c1; n1; n2; c2; s1; s2] =>
      if Ascii.eqb a "-" && Ascii.eqb b "-" && Ascii.eqb sp " "
         && Ascii.eqb c1 ":" && Ascii.eqb c2 ":"
      then
        match digits_value [y1; y2; y3; y4], digits_value [m1; m2],
              digits_value [d1; d2], digits_value [h1; h2],
              digits_value [n1; n2], digits_value [s1; s2] with
        | Some y, Some mo, Some d, Some h, Some mi, Some se =>
            Some (y, mo, d, h, mi, se)
        | _, _, _, _, _, _ => None
        end
      else None
  | _ => None
  end.

(** ** One call of [commit] *)

(** The value [random.randint(a, b)] returns at clock [k]. *)
Definition draw (o : Oracle) (k : nat) (a b : Z) : Z :=
  a + random_bits o k mod (b - a + 1).

(** Hours, minutes and seconds drawn by a call of [commit] in [w]. *)
Definition commit_time (o : Oracle) (w : World) : Z * Z * Z :=
  (draw o (clock w) 9 17, draw o (1 + clock w) 0 59, draw o (2 + clock w) 0 59).

Definition timestamp (d : date) (hms : Z * Z * Z) : string :=
  let '(hours, minutes, seconds) := hms in
  isoformat d +:+ " " +:+
  (format_0d 2 hours +:+ ":" +:+ format_0d 2 minutes +:+ ":"
   +:+ format_0d 2 seconds).

(** The text written to the scratch file. *)
Definition scratch_data (o : Oracle) (w : World) (msg : string) : string :=
  msg +:+ newline
  +:+ hex (map (fun i => urandom_byte o (i + (4 + clock w))%nat) (seq 0 8))
  +:+ newline.

(** The environment handed to [git commit], and its reference. *)
Definition child_env (o : Oracle) (w : World) (commit_date : date)
    : gmap string string :=
  <["GIT_AUTHOR_DATE"%string := timestamp commit_date (commit_time o w)]>
    (<["GIT_COMMITTER_DATE"%string := timestamp commit_date (commit_time o w)]>
       (deref w os_environ)).

Definition child_env_loc (w : World) : loc :=
  fresh ({[os_environ]} ∪ dom (heap w)).

(** The world once the scratch file is written and the environment of the
    child is set up. *)
Definition world_written (o : Oracle) (w : World) (commit_date : date)
    (msg : string) : World :=
  mkWorld (<[child_env_loc w := child_env o w commit_date]> (heap w))
          (<[".tmpfile"%string := scratch_data o w msg]> (fs w))
          (13 + clock w).

Definition lock_path : string := path_join ".git" "index.lock".

Definition write_failed (e : string) : string :=
  "Error writing to .tmpfile: " +:+ e.

Definition critical_git_missing : string :=
  "CRITICAL ERROR: 'git' executable not found. Ensure Git is installed and in your PATH.".

Definition git_failed (d : date) (e : exn) : string :=
  "Git command failed for date " +:+ isoformat d +:+ ": " +:+ str_exn e.

Definition lock_removed : string :=
  "Removed .git/index.lock. Attempting to proceed...".

(** What the handler of a failed git command does to the files [f], and
    the events it adds after its first message. *)
Definition unlock (f : gmap string string) : gmap string string :=
  delete lock_path f.

Definition unlock_events (f : gmap string string) : list event :=
  if bool_decide (is_Some (f !! lock_path))
  then [Removed lock_path; Printed lock_removed] else [].

Definition git_add : list string := ["git"; "add"; ".tmpfile"]%string.

Definition git_commit (msg : string) : list string :=
  ["git"; "commit"; "-m"; msg]%string.

Definition git_init : list string := ["git"; "init"]%string.

(** The seven ways a call of [commit] can go. *)
Inductive commit_case (o : Oracle) (w : World) (d : date) (msg : string)
    : run unit -> Prop :=
  | open_error e :
      commit_case o w d msg
        (mkrun (Ret tt) (mkWorld (heap w) (fs w) (4 + clock w))
           [Opened ".tmpfile" (Some e); Printed (write_failed e)])
  | write_error e :
      commit_case o w d msg
        (mkrun (Ret tt)
           (mkWorld (heap w) (<[".tmpfile"%string := EmptyString]> (fs w))
                    (13 + clock w))
           [Opened ".tmpfile" None;
            Written ".tmpfile" (scratch_data o w msg) (Some e);
            Printed (write_failed e)])
  | add_missing :
      commit_case o w d msg
        (mkrun (Raise (SystemExit 1))
           (mkWorld (heap (world_written o w d msg))
                    (fs (world_written o w d msg)) (14 + clock w))
           [Opened ".tmpfile" None;
            Written ".tmpfile" (scratch_data o w msg) None;
            Ran git_add (deref w os_environ) true true None;
            Printed critical_git_missing])
  | add_failed rc fs2 :
      rc <> 0 ->
      commit_case o w d msg
        (mkrun (Ret tt)
           (mkWorld (heap (world_written o w d msg)) (unlock fs2)
                    (14 + clock w))
           ([Opened ".tmpfile" None;
             Written ".tmpfile" (scratch_data o w msg) None;
             Ran git_add (deref w os_environ) true true (Some (rc, fs2));
             Printed (git_failed d (CalledProcessError git_add rc))]
            ++ unlock_events fs2))
  | commit_missing fs2 :
      commit_case o w d msg
        (mkrun (Raise (SystemExit 1))
           (mkWorld (heap (world_written o w d msg)) fs2 (15 + clock w))
           [Opened ".tmpfile" None;
            Written ".tmpfile" (scratch_data o w msg) None;
            Ran git_add (deref w os_environ) true true (Some (0, fs2));
            Ran (git_commit msg) (child_env o w d) true true None;
            Printed critical_git_missing])
  | commit_failed fs2 rc fs3 :
      rc <> 0 ->
      commit_case o w d msg
        (mkrun (Ret tt)
           (mkWorld (heap (world_written o w d msg)) (unlock fs3)
                    (15 + clock w))
           ([Opened ".tmpfile" None;
             Written ".tmpfile" (scratch_data o w msg) None;
             Ran git_add (deref w os_environ) true true (Some (0, fs2));
             Ran (git_commit msg) (child_env o w d) true true (Some (rc, fs3));
             Printed (git_failed d (CalledProcessError (git_commit msg) rc))]
            ++ unlock_events fs3))
  | committed fs2 fs3 :
      commit_case o w d msg
        (mkrun (Ret tt)
           (mkWorld (heap (world_written o w d msg)) fs3 (15 + clock w))
           [Opened ".tmpfile" None;
            Written ".tmpfile" (scratch_data o w msg) None;
            Ran git_add (deref w os_environ) true true (Some (0, fs2));
            Ran (git_commit msg) (child_env o w d) true true (Some (0, fs3));
            Slept 10]).

(** ** Reading a trace *)

(** A program was to be run and its executable was not found. *)
Definition tool_missing (e : event) : bool :=
  match e with Ran _ _ _ _ None => true | _ => false end.

Definition is_run (e : event) : bool :=
  match e with Ran _ _ _ _ _ => true | _ => false end.

Definition is_open_write (e : event) : bool :=
  match e with Opened _ _ => true | _ => false end.



(** The scratch file could not be opened or written. *)
Definition io_failed (e : event) : bool :=
  match e with
  | Opened _ (Some _) | Written _ _ (Some _) => true
  | _ => false
  end.

(** The days whose iteration began, in order. *)
Definition days_processed (ev : list event) : list date :=
  omap (fun e => match e with DayBegan d => Some d | _ => None end) ev.

(** The calls of [commit]: each opens the scratch file exactly once, as its
    first action. *)
Definition commits_attempted (ev : list event) : nat :=
  length (List.filter is_open_write ev).

(** The run [r] after the events [ev]. *)
Definition followed_by {A} (ev : list event) (r : run A) : run A :=
  mkrun (outcome r) (world r) (ev ++ events r).

(** The run stopped at a program that was not found: the lookup is followed
    by one message and [sys.exit(1)], and no lookup failed before. *)
Definition fatal (r : run unit) : Prop :=
  outcome r = Raise (SystemExit 1)
  /\ exists pre args env so se line,
       events r = pre ++ [Ran args env so se None; Printed line]
       /\ existsb tool_missing pre = false
       /\ (args = git_init \/ args = git_add
           \/ exists msg, args = git_commit msg).

(** How a part of the script that only calls [commit] can end: normally and
    with every program found, or at a missing program. *)
Definition settled (r : run unit) : Prop :=
  (outcome r = Ret tt /\ existsb tool_missing (events r) = false) \/ fatal r.

(** The line printed for a day with [n] commits. *)
Definition day_banner (d : date) (n : Z) : list event :=
  if n >? 0
  then [Printed ("--> " +:+ isoformat d +:+ ": Generating " +:+ str_int n
               +:+ " commits...")]
  else [].

Definition overflow : exn := OverflowError "date value out of range".

Definition starting (start_date end_date : date) : string :=
  "Starting commit generation from " +:+ isoformat start_date +:+ " to "
  +:+ isoformat end_date +:+ "...".

Definition complete : string :=
  "Generation complete. Don't forget to push your changes to the remote repository!".

(** ** Worlds and oracles to run the script in *)

(** A working directory that is a repository, and an environment with one
    variable. *)
Definition world0 : World :=
  mkWorld {[ os_environ := {[ "PATH"%string := "/usr/bin"%string ]} ]}
          {[ ".git"%string := EmptyString ]} 0.

(** The same directory before [git init]. *)
Definition world_bare : World :=
  mkWorld {[ os_environ := {[ "PATH"%string := "/usr/bin"%string ]} ]} ∅ 0.

(** Everything works; every draw of the generator gives 1, so that each day
    gets one commit, at 10:01:01. *)
Definition steady : Oracle :=
  mkOracle (fun _ => 1) (fun _ => x00%byte) (fun _ => None)
           (fun _ _ => true) (fun _ _ _ f => (0, f)).

(** Git is not installed. *)
Definition no_git : Oracle :=
  mkOracle (fun _ => 1) (fun _ => x00%byte) (fun _ => None)
           (fun _ _ => false) (fun _ _ _ f => (0, f)).


(** [git add] works, [git commit] ends with status 1 and leaves its lock
    behind when [leaves_lock] is set. *)
Definition commit_fails (leaves_lock : bool) : Oracle :=
  mkOracle (fun _ => 1) (fun _ => x00%byte) (fun _ => None)
           (fun _ _ => true)
           (fun _ args _ f =>
              if bool_decide (args !! 1%nat = Some "commit"%string)
              then (1, if leaves_lock
                       then <[lock_path := EmptyString]> f else f)
              else (0, f)).

(** The scratch file cannot be opened. *)
Definition disk_full : Oracle :=
  mkOracle (fun _ => 1) (fun _ => x00%byte)
           (fun _ => Some "[Errno 28] No space left on device"%string)
           (fun _ _ => true) (fun _ _ _ f => (0, f)).

(** The messages of the [__main__] block. *)
Definition warning_not_a_repository : string :=
  "WARNING: Current folder is not a Git repository. Initializing...".

Definition repository_initialized : string :=
  "Git repository successfully initialized.".

Definition critical_init_failed : string :=
  "CRITICAL ERROR: Failed to initialize Git repository.".

Definition critical_init_missing : string :=
  "CRITICAL ERROR: 'git' executable not found during initialization. Ensure Git is in your PATH.".


(** [git commit] was run (found or not). *)
Definition is_git_commit_run (e : event) : bool :=
  match e with
  | Ran args _ _ _ _ => bool_decide (args !! 1%nat = Some "commit"%string)
  | _ => false
  end.

(** Every draw of the generator gives 3: three commits a day, at
    12:03:03. *)
Definition three_a_day : Oracle :=
  mkOracle (fun _ => 3) (fun _ => x00%byte) (fun _ => None)
           (fun _ _ => true) (fun _ _ _ f => (0, f)).

(** The messages of the commits that were made. *)
Definition commit_messages (ev : list event) : list string :=
  omap (fun e =>
          match e with
          | Ran args _ _ _ (Some (0, _)) =>
              if is_git_commit_run e then args !! 3%nat else None
          | _ => None
          end) ev.

(** ** Further vocabulary *)

(** One of the characters ['0'] .. ['9'], ['a'] .. ['f']. *)
Definition is_hex_digit (c : ascii) : bool :=
  let n := nat_of_ascii c in
  ((48 <=? n)%nat && (n <=? 57)%nat) || ((97 <=? n)%nat && (n <=? 102)%nat).

(** The programs a trace ran, in order. *)
Definition programs_run (ev : list event) : list event :=
  List.filter is_run ev.

(** The last day a [date] can hold. *)
Definition date_max : date := mkdate 9999 12 31.


(** [git init] ends with status 128; everything else works. *)
Definition init_fails : Oracle :=
  mkOracle (fun _ => 1) (fun _ => x00%byte) (fun _ => None)
           (fun _ _ => true)
           (fun _ args _ f =>
              if bool_decide (args !! 1%nat = Some "init"%string)
              then (128, f) else (0, f)).

(** [git init] creates the [.git] directory; everything else works. *)
Definition init_works : Oracle :=
  mkOracle (fun _ => 1) (fun _ => x00%byte) (fun _ => None)
           (fun _ _ => true)
           (fun _ args _ f =>
              if bool_decide (args !! 1%nat = Some "init"%string)
              then (0, <[".git"%string := EmptyString]> f) else (0, f)).

(** What [commit] and the day loop run: [git add] and [git commit], with
    both streams discarded, the message being that of a commit [i + 1] out
    of [n] of some day, with [n] at most [MAX_COMMITS_PER_DAY]. *)
Definition runs_add_or_commit (e : event) : Prop :=
  match e with
  | Ran args _ so se _ =>
      so = true /\ se = true
      /\ (args = git_add
          \/ exists i n d,
               args = git_commit (commit_message i n d)
               /\ 0 <= i < n /\ n <= MAX_COMMITS_PER_DAY)
  | _ => True
  end.

(** * The script at work *)

Example toordinal_start : toordinal START_DATE = 738652.
Proof. reflexivity. Qed.

Example isoformat_start : isoformat START_DATE = "2023-05-12"%string.
Proof. reflexivity. Qed.

Example configured_range : days_between END_DATE START_DATE + 1 = 90.
Proof. reflexivity. Qed.

Example last_day_of_february :
  date_add_days (mkdate 2024 2 28) 1 = Some (mkdate 2024 2 29)
  /\ date_add_days (mkdate 2023 2 28) 1 = Some (mkdate 2023 3 1)
  /\ date_add_days (mkdate 9999 12 31) 1 = None.
Proof. repeat split; reflexivity. Qed.

(** A day with three commits: the three messages, in order. *)
Example three_commits :
  commit_messages (events (process_day START_DATE three_a_day world0))
  = ["Simulated activity commit 1/3 on 2023-05-12";
     "Simulated activity commit 2/3 on 2023-05-12";
     "Simulated activity commit 3/3 on 2023-05-12"]%string.
Proof. vm_compute. reflexivity. Qed.

(** A whole run over the configured range: 90 days, one commit each, exit
    status 0. *)
Example steady_run :
  exit_status (outcome (main steady world0)) = Some 0
  /\ length (days_processed (events (main steady world0))) = 90%nat
  /\ length (commit_messages (events (main steady world0))) = 90%nat.
Proof. vm_compute. repeat split; reflexivity. Qed.

(** The same run started outside a repository begins with [git init]. *)
Example bootstrap_run :
  take 3 (events (main steady world_bare))
  = [Printed "WARNING: Current folder is not a Git repository. Initializing...";
     Ran ["git"; "init"]%string (deref world_bare os_environ) true false
         (Some (0, fs world_bare));
     Printed "Git repository successfully initialized."].
Proof. vm_compute. reflexivity. Qed.

(** * Properties of the calendar *)

(** Linear arithmetic with the divisions and remainders by constants turned
    into their defining equations. *)
Ltac zlia := Z.div_mod_to_equations; lia.

Section Calendar.

(** A check that holds on every element of an interval holds on each of its
    points. *)
Lemma forallb_seqZ (P : Z -> bool) (lo len : Z) :
  forallb P (seqZ lo len) = true ->
  forall n, lo <= n < lo + len -> P n = true.
Proof.
  intros Hall n Hn.
  rewrite forallb_forall in Hall. apply Hall.
  apply list_elem_of_In, elem_of_seqZ. lia.
Qed.

Lemma month_and_day_spec (leapyear : bool) (n : Z) :
  0 <= n < 365 -> month_and_day_ok leapyear n = true.
Proof.
  intros Hn. destruct leapyear.
  - apply (forallb_seqZ (month_and_day_ok true) 0 365); [now vm_compute | lia].
  - apply (forallb_seqZ (month_and_day_ok false) 0 365); [now vm_compute | lia].
Qed.

Lemma ord2ymd_unfold (n : Z) :
  _ord2ymd n =
  let n0 := n - 1 in
  let n400 := n0 / 146097 in
  let r := n0 mod 146097 in
  let n100 := r / 36524 in
  let r := r mod 36524 in
  let n4 := r / 1461 in
  let r := r mod 1461 in
  let n1 := r / 365 in
  let r := r mod 365 in
  let y := n400 * 400 + 1 + (n100 * 100 + n4 * 4 + n1) in
  if (n1 =? 4) || (n100 =? 4) then (y - 1, 12, 31)
  else
    let leapyear := (n1 =? 3) && (negb (n4 =? 24) || (n100 =? 3)) in
    let '(m, d) := month_and_day r leapyear in (y, m, d).
Proof.
  unfold _ord2ymd, month_and_day, _DI400Y, _DI100Y, _DI4Y. cbv zeta.
  destruct (_ || _); [reflexivity|].
  destruct (_ >? _); reflexivity.
Qed.

Lemma is_leap_true (y : Z) :
  y mod 4 = 0 -> (y mod 100 <> 0 \/ y mod 400 = 0) -> _is_leap y = true.
Proof.
  intros H4 H. unfold _is_leap.
  apply andb_true_intro. split; [lia|].
  destruct H as [H|H]; apply orb_true_iff; [left|right]; lia.
Qed.

Lemma is_leap_false (y : Z) :
  (y mod 4 <> 0 \/ (y mod 100 = 0 /\ y mod 400 <> 0)) -> _is_leap y = false.
Proof.
  intros H. unfold _is_leap.
  destruct H as [H|[H1 H2]].
  - apply andb_false_iff. left. lia.
  - apply andb_false_iff. right. apply orb_false_iff. split; [|lia].
    apply negb_false_iff. lia.
Qed.

(** [_ord2ymd] inverts [_ymd2ord] and only produces valid dates. *)
Lemma fromordinal_spec (n : Z) :
  1 <= n <= _MAXORDINAL ->
  valid_date (fromordinal n) = true /\ toordinal (fromordinal n) = n.
Proof.
  unfold _MAXORDINAL. intros Hn.
  unfold fromordinal. rewrite ord2ymd_unfold. cbv zeta.
  set (n0 := n - 1).
  set (a := n0 / 146097). set (r1 := n0 mod 146097).
  set (b := r1 / 36524). set (r2 := r1 mod 36524).
  set (c := r2 / 1461). set (r3 := r2 mod 1461).
  set (e := r3 / 365). set (r4 := r3 mod 365).
  assert (Ha : n0 = 146097 * a + r1 /\ 0 <= r1 < 146097)
    by (subst a r1; split; [apply Z.div_mod; lia | apply Z.mod_pos_bound; lia]).
  assert (Hb : r1 = 36524 * b + r2 /\ 0 <= r2 < 36524)
    by (subst b r2; split; [apply Z.div_mod; lia | apply Z.mod_pos_bound; lia]).
  assert (Hc : r2 = 1461 * c + r3 /\ 0 <= r3 < 1461)
    by (subst c r3; split; [apply Z.div_mod; lia | apply Z.mod_pos_bound; lia]).
  assert (He : r3 = 365 * e + r4 /\ 0 <= r4 < 365)
    by (subst e r4; split; [apply Z.div_mod; lia | apply Z.mod_pos_bound; lia]).
  assert (Hn0 : n0 = n - 1) by reflexivity.
  clearbody a r1 b r2 c r3 e r4 n0.
  assert (Hbounds : 0 <= a <= 24 /\ 0 <= b <= 4 /\ 0 <= c <= 24 /\ 0 <= e <= 4) by lia.
  destruct ((e =? 4) || (b =? 4)) eqn:Hspecial.
  - (* the last day of a leap year *)
    set (y := a * 400 + 1 + (b * 100 + c * 4 + e) - 1).
    assert (Hcase : (e = 4 /\ b <= 3 /\ r4 = 0 /\ c <= 23)
                    \/ (b = 4 /\ c = 0 /\ e = 0 /\ r4 = 0)) by lia.
    assert (Hleap : _is_leap y = true).
    { apply is_leap_true; subst y; zlia. }
    assert (Hdby : _days_before_year y = n0 - 365).
    { unfold _days_before_year. subst y. cbv zeta. zlia. }
    unfold valid_date, toordinal, _ymd2ord, _days_in_month, _days_before_month.
    cbn [year month day]. rewrite Hleap, Hdby.
    change (table_get _DAYS_IN_MONTH 12) with 31.
    change (table_get _DAYS_BEFORE_MONTH 12) with 334.
    change (12 =? 2) with false. change (12 >? 2) with true.
    unfold MINYEAR, MAXYEAR. cbn [andb].
    subst y. split; lia.
  - set (y := a * 400 + 1 + (b * 100 + c * 4 + e)).
    set (leapyear := (e =? 3) && (negb (c =? 24) || (b =? 3))).
    assert (Hcase : e <= 3 /\ b <= 3) by lia.
    assert (Hleap : _is_leap y = leapyear).
    { subst leapyear. destruct ((e =? 3) && (negb (c =? 24) || (b =? 3))) eqn:HL.
      - apply is_leap_true; subst y; zlia.
      - apply is_leap_false; subst y; zlia. }
    assert (Hdby : _days_before_year y = n0 - r4).
    { unfold _days_before_year. subst y. cbv zeta. zlia. }
    pose proof (month_and_day_spec leapyear r4 ltac:(lia)) as Hmd.
    unfold month_and_day_ok in Hmd.
    destruct (month_and_day r4 leapyear) as [m d].
    unfold valid_date, toordinal, _ymd2ord, _days_in_month, _days_before_month.
    unfold in_month, before_month in Hmd.
    cbn [year month day]. rewrite Hleap, Hdby.
    unfold MINYEAR, MAXYEAR.
    assert (Hy : 1 <= y <= 9999) by (subst y; lia).
    clearbody y leapyear.
    split; lia.
Qed.


Lemma valid_date_iff (d : date) :
  valid_date d = true <->
  1 <= year d <= 9999 /\ 1 <= month d <= 12
  /\ 1 <= day d <= _days_in_month (year d) (month d).
Proof. unfold valid_date, MINYEAR, MAXYEAR. lia. Qed.

Lemma months_spec (leap : bool) (m1 : Z) :
  1 <= m1 <= 12 ->
  0 <= before_month leap m1 /\ 1 <= in_month leap m1 <= 31
  /\ before_month leap m1 + in_month leap m1 <= 365 + (if leap then 1 else 0)
  /\ forall m2, m1 < m2 <= 12 ->
       before_month leap m1 + in_month leap m1 <= before_month leap m2.
Proof.
  intros Hm.
  assert (Hok : months_ok leap m1 = true).
  { destruct leap.
    - apply (forallb_seqZ (months_ok true) 1 12); [now vm_compute | lia].
    - apply (forallb_seqZ (months_ok false) 1 12); [now vm_compute | lia]. }
  unfold months_ok in Hok.
  apply andb_prop in Hok as [Hok Hall].
  repeat split; try lia.
  intros m2 Hm2.
  pose proof (forallb_seqZ _ _ _ Hall m2 ltac:(lia)) as H. cbv beta in H. lia.
Qed.

Lemma days_before_year_succ (y : Z) :
  _days_before_year (y + 1)
  = _days_before_year y + 365 + (if _is_leap y then 1 else 0).
Proof.
  unfold _days_before_year. cbv zeta.
  destruct (_is_leap y) eqn:Hleap; unfold _is_leap in Hleap; zlia.
Qed.

Lemma days_before_year_mono (y1 y2 : Z) :
  y1 <= y2 -> _days_before_year y1 <= _days_before_year y2.
Proof. unfold _days_before_year. cbv zeta. intros H. zlia. Qed.

Lemma toordinal_unfold (d : date) :
  toordinal d
  = _days_before_year (year d) + before_month (_is_leap (year d)) (month d)
    + day d.
Proof. reflexivity. Qed.

Lemma days_in_month_unfold (y m : Z) :
  _days_in_month y m = in_month (_is_leap y) m.
Proof. reflexivity. Qed.

(** The ordinal grows with the (year, month, day) triple. *)
Lemma toordinal_lt (a b : date) :
  valid_date a = true -> valid_date b = true ->
  year a < year b
  \/ (year a = year b /\ month a < month b)
  \/ (year a = year b /\ month a = month b /\ day a < day b) ->
  toordinal a < toordinal b.
Proof.
  intros Ha Hb Hlt.
  apply valid_date_iff in Ha as (Hya & Hma & Hda).
  apply valid_date_iff in Hb as (Hyb & Hmb & Hdb).
  rewrite days_in_month_unfold in Hda, Hdb.
  rewrite !toordinal_unfold.
  pose proof (months_spec (_is_leap (year a)) (month a) Hma) as (A1 & A2 & A3 & A4).
  pose proof (months_spec (_is_leap (year b)) (month b) Hmb) as (B1 & B2 & B3 & B4).
  destruct Hlt as [Hy | [[Hy Hm] | (Hy & Hm & Hd)]].
  - pose proof (days_before_year_succ (year a)) as Hs.
    pose proof (days_before_year_mono (year a + 1) (year b) ltac:(lia)) as Hmono.
    destruct (_is_leap (year a)); lia.
  - rewrite Hy in *. specialize (A4 (month b) ltac:(lia)). lia.
  - rewrite Hy, Hm in *. lia.
Qed.

Lemma date_le_iff (a b : date) :
  date_le a b = true <->
  year a < year b
  \/ (year a = year b /\ month a < month b)
  \/ (year a = year b /\ month a = month b /\ day a <= day b).
Proof.
  unfold date_le.
  destruct (year a =? year b) eqn:Hy; [destruct (month a =? month b) eqn:Hm|]; lia.
Qed.

Lemma date_le_toordinal (a b : date) :
  valid_date a = true -> valid_date b = true ->
  date_le a b = true <-> toordinal a <= toordinal b.
Proof.
  intros Ha Hb.
  pose proof (toordinal_lt a b Ha Hb) as Hab.
  pose proof (toordinal_lt b a Hb Ha) as Hba.
  unfold date_le.
  destruct (year a =? year b) eqn:Hy; [destruct (month a =? month b) eqn:Hm|].
  - destruct (Z_lt_le_dec (day b) (day a)) as [Hd|Hd].
    + specialize (Hba ltac:(lia)). lia.
    + destruct (Z.eq_dec (day a) (day b)) as [He|Hne].
      * assert (a = b) as ->
          by (destruct a, b; cbn [year month day] in *; f_equal; lia).
        lia.
      * specialize (Hab ltac:(lia)). lia.
  - destruct (Z_lt_le_dec (month a) (month b)) as [Hd|Hd].
    + specialize (Hab ltac:(lia)). lia.
    + specialize (Hba ltac:(lia)). lia.
  - destruct (Z_lt_le_dec (year a) (year b)) as [Hd|Hd].
    + specialize (Hab ltac:(lia)). lia.
    + specialize (Hba ltac:(lia)). lia.
Qed.

Lemma toordinal_inj (a b : date) :
  valid_date a = true -> valid_date b = true ->
  toordinal a = toordinal b -> a = b.
Proof.
  intros Ha Hb Heq.
  pose proof (toordinal_lt a b Ha Hb) as Hab.
  pose proof (toordinal_lt b a Hb Ha) as Hba.
  destruct a as [ya ma da], b as [yb mb db]. cbn [year month day] in *.
  assert (ya = yb) by lia. subst yb.
  assert (ma = mb) by lia. subst mb.
  assert (da = db) by lia. subst db. reflexivity.
Qed.

Lemma toordinal_bounds (d : date) :
  valid_date d = true -> 1 <= toordinal d <= _MAXORDINAL.
Proof.
  intros Hd.
  assert (Hmin : valid_date (mkdate 1 1 1) = true) by reflexivity.
  assert (Hmax : valid_date (mkdate 9999 12 31) = true) by reflexivity.
  pose proof (proj1 (date_le_toordinal (mkdate 1 1 1) d Hmin Hd)) as Hlo.
  pose proof (proj1 (date_le_toordinal d (mkdate 9999 12 31) Hd Hmax)) as Hhi.
  apply valid_date_iff in Hd as (Hy & Hm & Hdd).
  rewrite days_in_month_unfold in Hdd.
  pose proof (months_spec (_is_leap (year d)) (month d) Hm) as (A1 & A2 & A3 & A4).
  change (toordinal (mkdate 1 1 1)) with 1 in Hlo.
  change (toordinal (mkdate 9999 12 31)) with _MAXORDINAL in Hhi.
  split.
  - apply Hlo, date_le_iff. cbn [year month day]. lia.
  - apply Hhi, date_le_iff. cbn [year month day].
    assert (Hdim : month d = 12 -> in_month (_is_leap (year d)) (month d) = 31).
    { intros ->. unfold in_month. reflexivity. }
    lia.
Qed.

Lemma fromordinal_toordinal (d : date) :
  valid_date d = true -> fromordinal (toordinal d) = d.
Proof.
  intros Hd.
  destruct (fromordinal_spec (toordinal d) (toordinal_bounds d Hd)) as [Hv Ho].
  now apply toordinal_inj.
Qed.

(** Adding one day: the next ordinal, or [OverflowError] after
    9999-12-31. *)
Lemma date_add_one_day (d : date) :
  valid_date d = true ->
  (toordinal d < _MAXORDINAL /\
   exists d', date_add_days d 1 = Some d' /\ valid_date d' = true
              /\ toordinal d' = toordinal d + 1)
  \/ (toordinal d = _MAXORDINAL /\ date_add_days d 1 = None).
Proof.
  intros Hd. pose proof (toordinal_bounds d Hd) as Hb.
  unfold date_add_days.
  destruct (Z_lt_le_dec (toordinal d) _MAXORDINAL) as [Hlt|Hge].
  - left. split; [exact Hlt|].
    exists (fromordinal (toordinal d + 1)).
    destruct (fromordinal_spec (toordinal d + 1) ltac:(lia)) as [Hv Ho].
    repeat split; try assumption.
    destruct ((0 <? toordinal d + 1) && (toordinal d + 1 <=? _MAXORDINAL)) eqn:E;
      [reflexivity | lia].
  - right. split; [lia|].
    destruct ((0 <? toordinal d + 1) && (toordinal d + 1 <=? _MAXORDINAL)) eqn:E;
      [lia | reflexivity].
Qed.

End Calendar.

(** * How the script runs *)

Section Stepping.

Lemma run_bind_ret {A B} (m : M A) (k : A -> M B) o w a w1 ev1 r w2 ev2 :
  m o w = mkrun (Ret a) w1 ev1 -> k a o w1 = mkrun r w2 ev2 ->
  (m ≫= k) o w = mkrun r w2 (ev1 ++ ev2).
Proof.
  intros Hm Hk. unfold mbind, M_bind, bind. rewrite Hm. cbn.
  rewrite Hk. reflexivity.
Qed.

Lemma run_bind_raise {A B} (m : M A) (k : A -> M B) o w e w1 ev1 :
  m o w = mkrun (Raise e) w1 ev1 ->
  (m ≫= k) o w = mkrun (Raise e) w1 ev1.
Proof. intros Hm. unfold mbind, M_bind, bind. rewrite Hm. reflexivity. Qed.

Lemma run_bind_out_of_fuel {A B} (m : M A) (k : A -> M B) o w w1 ev1 :
  m o w = mkrun OutOfFuel w1 ev1 ->
  (m ≫= k) o w = mkrun OutOfFuel w1 ev1.
Proof. intros Hm. unfold mbind, M_bind, bind. rewrite Hm. reflexivity. Qed.

Lemma run_try_ret {A} (body : M A) h o w a w1 ev1 :
  body o w = mkrun (Ret a) w1 ev1 ->
  try_except body h o w = mkrun (Ret a) w1 ev1.
Proof. intros Hm. unfold try_except. rewrite Hm. reflexivity. Qed.

Lemma run_try_caught {A} (body : M A) h o w e w1 ev1 hd r w2 ev2 :
  body o w = mkrun (Raise e) w1 ev1 -> h e = Some hd ->
  hd o w1 = mkrun r w2 ev2 ->
  try_except body h o w = mkrun r w2 (ev1 ++ ev2).
Proof.
  intros Hm Hh Hr. unfold try_except. rewrite Hm. cbn. rewrite Hh, Hr.
  reflexivity.
Qed.

Lemma run_try_uncaught {A} (body : M A) h o w e w1 ev1 :
  body o w = mkrun (Raise e) w1 ev1 -> h e = None ->
  try_except body h o w = mkrun (Raise e) w1 ev1.
Proof. intros Hm Hh. unfold try_except. rewrite Hm. cbn. rewrite Hh. reflexivity. Qed.

Lemma draw_range o k a b : a <= b -> a <= draw o k a b <= b.
Proof.
  intros Hab. unfold draw.
  pose proof (Z.mod_pos_bound (random_bits o k) (b - a + 1) ltac:(lia)). lia.
Qed.

Lemma run_randint o w a b :
  a <= b -> randint a b o w = mkrun (Ret (draw o (clock w) a b)) (tick w) [].
Proof.
  intros Hab. unfold randint.
  destruct (b <? a) eqn:E; [lia | reflexivity].
Qed.

Lemma run_open_w_ok o w path :
  io_error o (clock w) = None ->
  open_w path o w
  = mkrun (Ret tt) (tick (set_fs (<[path := EmptyString]> (fs w)) w))
          [Opened path None].
Proof. intros H. unfold open_w. rewrite H. reflexivity. Qed.

Lemma run_open_w_error o w path msg :
  io_error o (clock w) = Some msg ->
  open_w path o w
  = mkrun (Raise (OSError msg)) (tick w) [Opened path (Some msg)].
Proof. intros H. unfold open_w. rewrite H. reflexivity. Qed.

Lemma run_file_write_ok o w path data :
  io_error o (clock w) = None ->
  file_write path data o w
  = mkrun (Ret tt)
      (tick (set_fs (<[path := default EmptyString (fs w !! path) +:+ data]>
                       (fs w)) w))
      [Written path data None].
Proof. intros H. unfold file_write. rewrite H. reflexivity. Qed.

Lemma run_file_write_error o w path data msg :
  io_error o (clock w) = Some msg ->
  file_write path data o w
  = mkrun (Raise (OSError msg)) (tick w) [Written path data (Some msg)].
Proof. intros H. unfold file_write. rewrite H. reflexivity. Qed.

Lemma run_os_urandom o w n :
  os_urandom n o w
  = mkrun (Ret (map (fun i => urandom_byte o (i + clock w)%nat) (seq 0 n)))
          (mkWorld (heap w) (fs w) (n + clock w)%nat) [].
Proof. reflexivity. Qed.

Lemma run_dict_copy o w l :
  dict_copy l o w
  = mkrun (Ret (fresh ({[os_environ]} ∪ dom (heap w))))
          (set_heap (<[fresh ({[os_environ]} ∪ dom (heap w)) := deref w l]>
                       (heap w)) w) [].
Proof. reflexivity. Qed.

Lemma run_dict_setitem o w l key value :
  dict_setitem l key value o w
  = mkrun (Ret tt)
          (set_heap (<[l := <[key := value]> (deref w l)]> (heap w)) w) [].
Proof. reflexivity. Qed.

Lemma run_print o w line : print line o w = mkrun (Ret tt) w [Printed line].
Proof. reflexivity. Qed.

Lemma run_sleep o w ms : sleep ms o w = mkrun (Ret tt) w [Slept ms].
Proof. reflexivity. Qed.

Lemma run_sys_exit {A} o w code :
  @sys_exit A code o w = mkrun (Raise (SystemExit code)) w [].
Proof. reflexivity. Qed.

Lemma run_ret {A} o w (a : A) : (mret a : M A) o w = mkrun (Ret a) w [].
Proof. reflexivity. Qed.

Lemma run_path_exists o w path :
  path_exists path o w = mkrun (Ret (bool_decide (is_Some (fs w !! path)))) w [].
Proof. reflexivity. Qed.

Lemma run_os_remove o w path content :
  fs w !! path = Some content ->
  os_remove path o w
  = mkrun (Ret tt) (set_fs (delete path (fs w)) w) [Removed path].
Proof. intros H. unfold os_remove. rewrite H. reflexivity. Qed.

Lemma run_subprocess_missing o w args env so se environment :
  deref w (default os_environ env) = environment ->
  executable_found o (clock w) (default EmptyString (head args)) = false ->
  subprocess_run args true env so se o w
  = mkrun (Raise (FileNotFoundError (default EmptyString (head args))))
          (tick w) [Ran args environment so se None].
Proof. intros <- H. unfold subprocess_run. rewrite H. reflexivity. Qed.

Lemma run_subprocess_ok o w args env so se environment fs' :
  deref w (default os_environ env) = environment ->
  executable_found o (clock w) (default EmptyString (head args)) = true ->
  execute o (clock w) args environment (fs w) = (0, fs') ->
  subprocess_run args true env so se o w
  = mkrun (Ret tt) (tick (set_fs fs' w)) [Ran args environment so se (Some (0, fs'))].
Proof. intros <- H1 H2. unfold subprocess_run. rewrite H1, H2. reflexivity. Qed.

Lemma run_subprocess_failed o w args env so se environment rc fs' :
  deref w (default os_environ env) = environment ->
  executable_found o (clock w) (default EmptyString (head args)) = true ->
  execute o (clock w) args environment (fs w) = (rc, fs') ->
  rc <> 0 ->
  subprocess_run args true env so se o w
  = mkrun (Raise (CalledProcessError args rc)) (tick (set_fs fs' w))
          [Ran args environment so se (Some (rc, fs'))].
Proof.
  intros <- H1 H2 H3. unfold subprocess_run. rewrite H1, H2.
  destruct (rc =? 0) eqn:E; [lia | reflexivity].
Qed.

End Stepping.

Ltac norm_world :=
  cbv beta delta [tick set_fs set_heap];
  cbn [heap fs clock Nat.add].

Ltac bind_ret tac := eapply run_bind_ret; [ tac | cbv beta; norm_world ].

Section CommitRuns.

Variables (o : Oracle) (w : World) (commit_date : date) (msg : string).

Lemma child_env_loc_fresh : child_env_loc w <> os_environ.
Proof.
  unfold child_env_loc.
  pose proof (is_fresh ({[os_environ]} ∪ dom (heap w))) as H.
  set_solver.
Qed.

Lemma child_env_loc_new : heap w !! child_env_loc w = None.
Proof.
  unfold child_env_loc.
  pose proof (is_fresh ({[os_environ]} ∪ dom (heap w))) as H.
  apply not_elem_of_dom. set_solver.
Qed.

Lemma deref_written_environ f c :
  deref (mkWorld (<[child_env_loc w := child_env o w commit_date]> (heap w)) f c)
        os_environ
  = deref w os_environ.
Proof.
  unfold deref. cbn [heap].
  rewrite lookup_insert_ne by apply child_env_loc_fresh. reflexivity.
Qed.

Lemma deref_written_child f c :
  deref (mkWorld (<[child_env_loc w := child_env o w commit_date]> (heap w)) f c)
        (child_env_loc w)
  = child_env o w commit_date.
Proof. unfold deref. cbn [heap]. rewrite lookup_insert_eq. reflexivity. Qed.

End CommitRuns.

(** The steps of [commit] up to the second [try], when the scratch file was
    written: the goal becomes the run of the git block in [world_written]. *)
Ltac commit_prefix Ho Hw :=
  unfold commit;
  bind_ret ltac:(apply run_randint; lia);
  bind_ret ltac:(apply run_randint; lia);
  bind_ret ltac:(apply run_randint; lia);
  bind_ret ltac:(eapply run_try_ret;
                 bind_ret ltac:(apply run_open_w_ok; exact Ho);
                 bind_ret ltac:(apply run_os_urandom);
                 bind_ret ltac:(apply run_file_write_ok; exact Hw);
                 apply run_ret);
  cbn [negb];
  bind_ret ltac:(apply run_dict_copy);
  bind_ret ltac:(apply run_dict_setitem);
  bind_ret ltac:(apply run_dict_setitem);
  unfold deref; norm_world;
  rewrite !lookup_insert_eq; cbn [default from_option id];
  rewrite !insert_insert_eq;
  match goal with
  | |- try_except _ _ ?o ?W = _ =>
      match goal with
      | w : World, d : date, msg : string |- _ =>
          change W with (world_written o w d msg)
      end
  end.

Section CommitCases.

Variables (o : Oracle) (w : World) (commit_date : date) (msg : string).

Local Notation "'c'" := (clock w).
Local Notation "'env0'" := (deref w os_environ).
Local Notation "'env1'" := (child_env o w commit_date).
Local Notation "'heap1'" :=
  (<[child_env_loc w := child_env o w commit_date]> (heap w)).
Local Notation "'fs1'" := (<[".tmpfile"%string := scratch_data o w msg]> (fs w)).
Local Notation "'data'" := (scratch_data o w msg).

Lemma commit_open_error e :
  io_error o (3 + c)%nat = Some e ->
  commit commit_date msg o w
  = mkrun (Ret tt) (mkWorld (heap w) (fs w) (4 + c))
      [Opened ".tmpfile" (Some e); Printed (write_failed e)].
Proof.
  intros He. unfold commit.
  eapply eq_trans.
  { bind_ret ltac:(apply run_randint; lia).
    bind_ret ltac:(apply run_randint; lia).
    bind_ret ltac:(apply run_randint; lia).
    bind_ret ltac:(eapply run_try_caught;
                   [ apply run_bind_raise, run_open_w_error; exact He
                   | reflexivity
                   | bind_ret ltac:(apply run_print); apply run_ret ]).
    apply run_ret. }
  reflexivity.
Qed.

Lemma commit_write_error e :
  io_error o (3 + c)%nat = None ->
  io_error o (12 + c)%nat = Some e ->
  commit commit_date msg o w
  = mkrun (Ret tt)
      (mkWorld (heap w) (<[".tmpfile"%string := EmptyString]> (fs w))
               (13 + c) )
      [Opened ".tmpfile" None; Written ".tmpfile" data (Some e);
       Printed (write_failed e)].
Proof.
  intros Ho Hw. unfold commit.
  eapply eq_trans.
  { bind_ret ltac:(apply run_randint; lia).
    bind_ret ltac:(apply run_randint; lia).
    bind_ret ltac:(apply run_randint; lia).
    bind_ret ltac:(eapply run_try_caught;
                   [ bind_ret ltac:(apply run_open_w_ok; exact Ho);
                     bind_ret ltac:(apply run_os_urandom);
                     apply run_bind_raise, run_file_write_error; exact Hw
                   | reflexivity
                   | bind_ret ltac:(apply run_print); apply run_ret ]).
    apply run_ret. }
  reflexivity.
Qed.

Lemma commit_add_missing :
  io_error o (3 + c)%nat = None ->
  io_error o (12 + c)%nat = None ->
  executable_found o (13 + c)%nat "git" = false ->
  commit commit_date msg o w
  = mkrun (Raise (SystemExit 1))
      (mkWorld heap1 fs1 (14 + c) )
      [Opened ".tmpfile" None; Written ".tmpfile" data None;
       Ran git_add env0 true true None; Printed critical_git_missing].
Proof.
  intros Ho Hw Hf.
  eapply eq_trans.
  { commit_prefix Ho Hw.
    eapply run_try_caught.
    - apply run_bind_raise.
      apply run_subprocess_missing; [apply deref_written_environ | exact Hf].
    - reflexivity.
    - bind_ret ltac:(apply run_print). apply run_sys_exit. }
  reflexivity.
Qed.


(** The handler of [CalledProcessError], after its first message. *)
Lemma run_unlock f h k :
  (locked ← path_exists (path_join ".git" "index.lock");
   if locked : bool
   then os_remove (path_join ".git" "index.lock");;
        print "Removed .git/index.lock. Attempting to proceed..."
   else mret tt) o (mkWorld h f k)
  = mkrun (Ret tt) (mkWorld h (unlock f) k) (unlock_events f).
Proof.
  unfold unlock, unlock_events. fold lock_path.
  destruct (f !! lock_path) as [content|] eqn:E.
  - eapply eq_trans.
    { bind_ret ltac:(apply run_path_exists).
      rewrite E. rewrite bool_decide_eq_true_2 by eauto.
      bind_ret ltac:(eapply run_os_remove; exact E).
      apply run_print. }
    rewrite bool_decide_eq_true_2 by eauto. reflexivity.
  - eapply eq_trans.
    { bind_ret ltac:(apply run_path_exists).
      rewrite E. rewrite bool_decide_eq_false_2 by (intros [? ?]; discriminate).
      apply run_ret. }
    rewrite bool_decide_eq_false_2 by (intros [? ?]; discriminate).
    rewrite delete_id by exact E. reflexivity.
Qed.

Lemma commit_add_failed rc fs2 :
  io_error o (3 + c)%nat = None ->
  io_error o (12 + c)%nat = None ->
  executable_found o (13 + c)%nat "git" = true ->
  execute o (13 + c)%nat git_add env0 fs1 = (rc, fs2) ->
  rc <> 0 ->
  commit commit_date msg o w
  = mkrun (Ret tt)
      (mkWorld heap1 (unlock fs2) (14 + c) )
      ([Opened ".tmpfile" None; Written ".tmpfile" data None;
        Ran git_add env0 true true (Some (rc, fs2));
        Printed (git_failed commit_date (CalledProcessError git_add rc))]
       ++ unlock_events fs2).
Proof.
  intros Ho Hw Hf Hx Hrc.
  eapply eq_trans.
  { commit_prefix Ho Hw.
    eapply run_try_caught.
    - apply run_bind_raise.
      eapply run_subprocess_failed;
        [apply deref_written_environ | exact Hf | exact Hx | exact Hrc].
    - reflexivity.
    - norm_world. bind_ret ltac:(apply run_print). apply run_unlock. }
  reflexivity.
Qed.

Lemma commit_commit_missing fs2 :
  io_error o (3 + c)%nat = None ->
  io_error o (12 + c)%nat = None ->
  executable_found o (13 + c)%nat "git" = true ->
  execute o (13 + c)%nat git_add env0 fs1 = (0, fs2) ->
  executable_found o (14 + c)%nat "git" = false ->
  commit commit_date msg o w
  = mkrun (Raise (SystemExit 1))
      (mkWorld heap1 fs2 (15 + c) )
      [Opened ".tmpfile" None; Written ".tmpfile" data None;
       Ran git_add env0 true true (Some (0, fs2));
       Ran (git_commit msg) env1 true true None; Printed critical_git_missing].
Proof.
  intros Ho Hw Hf Hx Hf2.
  eapply eq_trans.
  { commit_prefix Ho Hw.
    eapply run_try_caught.
    - bind_ret ltac:(eapply run_subprocess_ok;
                     [apply deref_written_environ | exact Hf | exact Hx]).
      apply run_bind_raise.
      apply run_subprocess_missing; [apply deref_written_child | exact Hf2].
    - reflexivity.
    - bind_ret ltac:(apply run_print). apply run_sys_exit. }
  reflexivity.
Qed.

Lemma commit_commit_failed fs2 rc fs3 :
  io_error o (3 + c)%nat = None ->
  io_error o (12 + c)%nat = None ->
  executable_found o (13 + c)%nat "git" = true ->
  execute o (13 + c)%nat git_add env0 fs1 = (0, fs2) ->
  executable_found o (14 + c)%nat "git" = true ->
  execute o (14 + c)%nat (git_commit msg) env1 fs2 = (rc, fs3) ->
  rc <> 0 ->
  commit commit_date msg o w
  = mkrun (Ret tt)
      (mkWorld heap1 (unlock fs3) (15 + c) )
      ([Opened ".tmpfile" None; Written ".tmpfile" data None;
        Ran git_add env0 true true (Some (0, fs2));
        Ran (git_commit msg) env1 true true (Some (rc, fs3));
        Printed (git_failed commit_date (CalledProcessError (git_commit msg) rc))]
       ++ unlock_events fs3).
Proof.
  intros Ho Hw Hf Hx Hf2 Hx2 Hrc.
  eapply eq_trans.
  { commit_prefix Ho Hw.
    eapply run_try_caught.
    - bind_ret ltac:(eapply run_subprocess_ok;
                     [apply deref_written_environ | exact Hf | exact Hx]).
      apply run_bind_raise.
      eapply run_subprocess_failed;
        [apply deref_written_child | exact Hf2 | exact Hx2 | exact Hrc].
    - reflexivity.
    - norm_world. bind_ret ltac:(apply run_print). apply run_unlock. }
  reflexivity.
Qed.

Lemma commit_committed fs2 fs3 :
  io_error o (3 + c)%nat = None ->
  io_error o (12 + c)%nat = None ->
  executable_found o (13 + c)%nat "git" = true ->
  execute o (13 + c)%nat git_add env0 fs1 = (0, fs2) ->
  executable_found o (14 + c)%nat "git" = true ->
  execute o (14 + c)%nat (git_commit msg) env1 fs2 = (0, fs3) ->
  commit commit_date msg o w
  = mkrun (Ret tt)
      (mkWorld heap1 fs3 (15 + c) )
      [Opened ".tmpfile" None; Written ".tmpfile" data None;
       Ran git_add env0 true true (Some (0, fs2));
       Ran (git_commit msg) env1 true true (Some (0, fs3)); Slept 10].
Proof.
  intros Ho Hw Hf Hx Hf2 Hx2.
  eapply eq_trans.
  { commit_prefix Ho Hw.
    eapply run_try_ret.
    bind_ret ltac:(eapply run_subprocess_ok;
                   [apply deref_written_environ | exact Hf | exact Hx]).
    bind_ret ltac:(eapply run_subprocess_ok;
                   [apply deref_written_child | exact Hf2 | exact Hx2]).
    apply run_sleep. }
  reflexivity.
Qed.

End CommitCases.

(** * Every call of [commit] is one of the seven cases *)

Lemma commit_cases o w d msg : commit_case o w d msg (commit d msg o w).
Proof.
  destruct (io_error o (3 + clock w)%nat) as [e|] eqn:Ho.
  { rewrite (commit_open_error o w d msg e Ho). constructor. }
  destruct (io_error o (12 + clock w)%nat) as [e|] eqn:Hw.
  { rewrite (commit_write_error o w d msg e Ho Hw). constructor. }
  destruct (executable_found o (13 + clock w)%nat "git") eqn:Hf; cycle 1.
  { rewrite (commit_add_missing o w d msg Ho Hw Hf). constructor. }
  destruct (execute o (13 + clock w)%nat ["git"; "add"; ".tmpfile"]%string
              (deref w os_environ)
              (<[".tmpfile"%string := scratch_data o w msg]> (fs w)))
    as [rc fs2] eqn:Hx.
  destruct (Z.eq_dec rc 0) as [->|Hrc]; cycle 1.
  { rewrite (commit_add_failed o w d msg rc fs2 Ho Hw Hf Hx Hrc).
    now constructor. }
  destruct (executable_found o (14 + clock w)%nat "git") eqn:Hf2; cycle 1.
  { rewrite (commit_commit_missing o w d msg fs2 Ho Hw Hf Hx Hf2). constructor. }
  destruct (execute o (14 + clock w)%nat ["git"; "commit"; "-m"; msg]%string
              (child_env o w d) fs2) as [rc fs3] eqn:Hx2.
  destruct (Z.eq_dec rc 0) as [->|Hrc]; cycle 1.
  { rewrite (commit_commit_failed o w d msg fs2 rc fs3 Ho Hw Hf Hx Hf2 Hx2 Hrc).
    now constructor. }
  rewrite (commit_committed o w d msg fs2 fs3 Ho Hw Hf Hx Hf2 Hx2). constructor.
Qed.

(** * Traces *)

Section Traces.

Lemma unlock_events_cases f :
  unlock_events f = [] \/ unlock_events f = [Removed lock_path; Printed lock_removed].
Proof. unfold unlock_events. case_bool_decide; auto. Qed.

Lemma days_processed_app ev1 ev2 :
  days_processed (ev1 ++ ev2) = days_processed ev1 ++ days_processed ev2.
Proof. apply omap_app. Qed.

Lemma commits_attempted_app ev1 ev2 :
  commits_attempted (ev1 ++ ev2)
  = (commits_attempted ev1 + commits_attempted ev2)%nat.
Proof. unfold commits_attempted. now rewrite List.filter_app, length_app. Qed.

Lemma followed_by_nil {A} (r : run A) : followed_by [] r = r.
Proof. now destruct r. Qed.

(** A run stays fatal when clean events come before it. *)
Lemma fatal_followed_by ev r :
  existsb tool_missing ev = false -> fatal r -> fatal (followed_by ev r).
Proof.
  intros Hev [Hout (pre & args & env & so & se & line & Hevents & Hpre & Hsite)].
  split; [exact Hout|].
  exists (ev ++ pre), args, env, so, se, line.
  cbn [followed_by events]. rewrite Hevents, existsb_app, Hev, Hpre.
  rewrite <- app_assoc. auto.
Qed.


(** Sequencing, when the first part returns or not. *)
Lemma bind_run {A B} (m : M A) (k : A -> M B) o w :
  (m ≫= k) o w =
  match outcome (m o w) with
  | Ret a => followed_by (events (m o w)) (k a o (world (m o w)))
  | Raise e => mkrun (Raise e) (world (m o w)) (events (m o w))
  | OutOfFuel => mkrun OutOfFuel (world (m o w)) (events (m o w))
  end.
Proof. reflexivity. Qed.

Lemma seq_ret (m : M unit) (k : unit -> M unit) o w :
  outcome (m o w) = Ret tt ->
  (m ≫= k) o w = followed_by (events (m o w)) (k tt o (world (m o w))).
Proof. intros H. rewrite bind_run, H. reflexivity. Qed.

Lemma seq_stop (m : M unit) (k : unit -> M unit) o w :
  (forall a, outcome (m o w) <> Ret a) -> (m ≫= k) o w = m o w.
Proof.
  intros H. rewrite bind_run.
  destruct (m o w) as [[a|e|] w' ev]; cbn in *; [now destruct (H a) | reflexivity..].
Qed.

Lemma fatal_stops r : fatal r -> forall a, outcome r <> Ret a.
Proof. intros [H _] a. rewrite H. discriminate. Qed.

End Traces.

(** * The commit loop, the day loop *)

Section Loops.

Variable o : Oracle.

Lemma commit_summary w d msg :
  let r := commit d msg o w in
  days_processed (events r) = []
  /\ commits_attempted (events r) = 1%nat
  /\ settled r.
Proof.
  cbv zeta. unfold settled, fatal.
  destruct (commit_cases o w d msg) as [e|e| |rc fs2 Hrc|fs2|fs2 rc fs3 Hrc|fs2 fs3];
    cbn [events outcome].
  - repeat split; auto.
  - repeat split; auto.
  - repeat split; auto. right. split; [reflexivity|].
    eexists [_; _], _, _, _, _, _. repeat split; eauto.
  - destruct (unlock_events_cases fs2) as [-> | ->]; repeat split; auto.
  - repeat split; auto. right. split; [reflexivity|].
    eexists [_; _; _], _, _, _, _, _. repeat split; eauto.
  - destruct (unlock_events_cases fs3) as [-> | ->]; repeat split; auto.
  - repeat split; auto.
Qed.

(** [for i in ...: commit(...)]. *)
Lemma for_each_commit_summary {A} (xs : list A) (f : A -> string) d w :
  let r := for_each xs (fun i => commit d (f i)) o w in
  days_processed (events r) = []
  /\ ((outcome r = Ret tt /\ existsb tool_missing (events r) = false
       /\ commits_attempted (events r) = length xs)
      \/ (fatal r /\ (commits_attempted (events r) <= length xs)%nat)).
Proof.
  cbv zeta. revert w. induction xs as [|x xs IH]; intros w.
  - cbn. auto.
  - cbn [for_each].
    destruct (commit_summary w d (f x)) as (Hd & Hc & [[Hret Hclean] | Hfatal]).
    + rewrite seq_ret by exact Hret.
      destruct (IH (world (commit d (f x) o w))) as (Hd' & Hrest).
      cbn [followed_by events outcome].
      rewrite days_processed_app, commits_attempted_app, existsb_app.
      rewrite Hd, Hd', Hc, Hclean. split; [reflexivity|].
      destruct Hrest as [(H1 & H2 & H3) | [H1 H2]].
      * left. rewrite H1, H2, H3. auto.
      * right. split; [|cbn [length]; lia].
        now apply (fatal_followed_by _ _ Hclean) in H1.
    + rewrite seq_stop by now apply fatal_stops.
      split; [exact Hd|]. right. split; [exact Hfatal|].
      rewrite Hc. cbn [length]. lia.
Qed.


Lemma run_day_begins w d : day_begins d o w = mkrun (Ret tt) w [DayBegan d].
Proof. reflexivity. Qed.

(** One day: the mark, the draw, the banner, the commits. *)
Lemma process_day_run w d :
  let n := draw o (clock w) MIN_COMMITS_PER_DAY MAX_COMMITS_PER_DAY in
  process_day d o w
  = followed_by (DayBegan d :: day_banner d n)
      (for_each (range n) (fun i => commit d (commit_message i n d)) o (tick w)).
Proof.
  cbv zeta. unfold process_day.
  set (n := draw o (clock w) MIN_COMMITS_PER_DAY MAX_COMMITS_PER_DAY).
  destruct (for_each (range n) (fun i => commit d (commit_message i n d)) o (tick w))
    as [out w' ev] eqn:Hfor.
  eapply eq_trans.
  { bind_ret ltac:(apply run_day_begins).
    bind_ret ltac:(apply run_randint; unfold MIN_COMMITS_PER_DAY, MAX_COMMITS_PER_DAY; lia).
    fold n.
    eapply run_bind_ret with (ev1 := day_banner d n) (w1 := tick w) (a := tt).
    - unfold day_banner. destruct (n >? 0); [apply run_print | apply run_ret].
    - exact Hfor. }
  reflexivity.
Qed.

Lemma days_processed_banner d n : days_processed (day_banner d n) = [].
Proof. unfold day_banner. now destruct (n >? 0). Qed.

Lemma commits_attempted_banner d n : commits_attempted (day_banner d n) = 0%nat.
Proof. unfold day_banner. now destruct (n >? 0). Qed.

Lemma tool_missing_banner d n : existsb tool_missing (day_banner d n) = false.
Proof. unfold day_banner. now destruct (n >? 0). Qed.

Lemma process_day_summary w d :
  let n := draw o (clock w) MIN_COMMITS_PER_DAY MAX_COMMITS_PER_DAY in
  let r := process_day d o w in
  MIN_COMMITS_PER_DAY <= n <= MAX_COMMITS_PER_DAY
  /\ days_processed (events r) = [d]
  /\ ((outcome r = Ret tt /\ existsb tool_missing (events r) = false
       /\ commits_attempted (events r) = Z.to_nat n)
      \/ (fatal r /\ (commits_attempted (events r) <= Z.to_nat n)%nat))
  /\ (n = 0 -> r = mkrun (Ret tt) (tick w) [DayBegan d]).
Proof.
  cbv zeta. rewrite process_day_run.
  set (n := draw o (clock w) MIN_COMMITS_PER_DAY MAX_COMMITS_PER_DAY).
  assert (Hn : MIN_COMMITS_PER_DAY <= n <= MAX_COMMITS_PER_DAY)
    by (apply draw_range; unfold MIN_COMMITS_PER_DAY, MAX_COMMITS_PER_DAY; lia).
  split; [exact Hn|].
  destruct (for_each_commit_summary (range n) (fun i => commit_message i n d)
              d (tick w)) as (Hd & Hrest).
  cbn [followed_by events outcome].
  change (DayBegan d :: day_banner d n) with ([DayBegan d] ++ day_banner d n).
  rewrite !days_processed_app, !commits_attempted_app, !existsb_app.
  rewrite days_processed_banner, commits_attempted_banner, tool_missing_banner, Hd.
  change (days_processed [DayBegan d]) with [d].
  change (commits_attempted [DayBegan d]) with 0%nat.
  change (existsb tool_missing [DayBegan d]) with false.
  cbn [app orb Nat.add].
  assert (Hlen : length (range n) = Z.to_nat n) by apply length_seqZ.
  split; [reflexivity|]. split.
  - destruct Hrest as [(H1 & H2 & H3) | [H1 H2]].
    + left. rewrite H1, H2, H3. auto.
    + right. split; [|cbn; lia].
      apply (fatal_followed_by (DayBegan d :: day_banner d n)) in H1; [exact H1|].
      cbn. apply tool_missing_banner.
  - intros ->. reflexivity.
Qed.

(** The day loop.  With enough fuel for the days that remain it either
    stops at a missing program or goes through every day of the range. *)
Lemma while_days_summary (fuel : nat) (current_date end_date : date) w :
  valid_date current_date = true -> valid_date end_date = true ->
  toordinal end_date - toordinal current_date + 1 <= Z.of_nat fuel ->
  let r := while_days fuel current_date end_date 1 o w in
  fatal r
  \/ (existsb tool_missing (events r) = false
      /\ days_processed (events r) = date_range current_date end_date
      /\ (outcome r = Ret tt
          \/ (outcome r = Raise overflow /\ toordinal end_date = _MAXORDINAL))).
Proof.
  cbv zeta. revert current_date w.
  induction fuel as [|fuel IH]; intros cur w Hcur Hend Hfuel.
  - (* no day left *)
    cbn [while_days].
    destruct (date_le cur end_date) eqn:Hle.
    + apply date_le_toordinal in Hle; [lia | assumption..].
    + right. cbn. split; [reflexivity|]. split; [|now left].
      unfold date_range, days_between. rewrite seqZ_nil; [reflexivity|].
      assert (~ toordinal cur <= toordinal end_date)
        by (rewrite <- date_le_toordinal by assumption; congruence).
      lia.
  - cbn [while_days].
    destruct (date_le cur end_date) eqn:Hle.
    + apply date_le_toordinal in Hle; [|assumption..].
      assert (Hrange : date_range cur end_date
                       = cur :: (fromordinal <$> seqZ (toordinal cur + 1)
                                   (toordinal end_date - toordinal cur))).
      { unfold date_range, days_between.
        rewrite seqZ_cons by lia. cbn [fmap list_fmap].
        rewrite fromordinal_toordinal by assumption.
        do 3 f_equal; lia. }
      destruct (process_day_summary w cur) as (_ & Hd & Hday & _).
      destruct Hday as [(Hret & Hclean & _) | [Hfatal _]].
      * rewrite seq_ret by exact Hret.
        set (rd := process_day cur o w) in *.
        destruct (date_add_one_day cur Hcur)
          as [(Hlt & d' & Hadd & Hvalid & Hord) | (Hmax & Hadd)].
        -- (* the cursor moves to the next day *)
           assert (Hstep : (date_plus cur 1
                            ≫= λ next_date, while_days fuel next_date end_date 1)
                             o (world rd)
                           = while_days fuel d' end_date 1 o (world rd)).
           { rewrite bind_run. unfold date_plus. rewrite Hadd. cbn.
             now rewrite followed_by_nil. }
           rewrite Hstep.
           destruct (IH d' (world rd) Hvalid Hend ltac:(lia))
             as [Hf | (Hc & Hdays & Hout)].
           ++ left. now apply fatal_followed_by.
           ++ right. cbn [followed_by events outcome].
              rewrite existsb_app, days_processed_app, Hclean, Hc, Hd, Hdays.
              split; [reflexivity|]. split; [|exact Hout].
              rewrite Hrange. unfold date_range, days_between. cbn [app].
              do 3 f_equal; lia.
        -- (* the cursor was [date.max] *)
           pose proof (toordinal_bounds end_date Hend) as Hb.
           assert (Hstep : (date_plus cur 1
                            ≫= λ next_date, while_days fuel next_date end_date 1)
                             o (world rd)
                           = mkrun (Raise overflow) (world rd) []).
           { rewrite bind_run. unfold date_plus. rewrite Hadd. reflexivity. }
           rewrite Hstep. right. cbn [followed_by events outcome].
           rewrite app_nil_r, Hclean, Hd.
           split; [reflexivity|]. split; [|right; split; [reflexivity | lia]].
           rewrite Hrange.
           replace (toordinal end_date - toordinal cur) with 0 by lia.
           reflexivity.
      * left. rewrite seq_stop by now apply fatal_stops. exact Hfatal.
    + right. cbn. split; [reflexivity|]. split; [|now left].
      unfold date_range, days_between. rewrite seqZ_nil; [reflexivity|].
      assert (~ toordinal cur <= toordinal end_date)
        by (rewrite <- date_le_toordinal by assumption; congruence).
      lia.
Qed.


(** [generate_commits]: the day loop between its two notices. *)
Lemma generate_commits_run start_date end_date w :
  generate_commits start_date end_date o w
  = let r := while_days (Z.to_nat (days_between end_date start_date + 1))
               start_date end_date 1 o w in
    match outcome r with
    | Ret _ =>
        mkrun (Ret tt) (world r)
          (Printed (starting start_date end_date) :: events r ++ [Printed complete])
    | _ =>
        mkrun (outcome r) (world r)
          (Printed (starting start_date end_date) :: events r)
    end.
Proof.
  unfold generate_commits. cbv zeta. unfold timedelta.
  rewrite bind_run. cbn [print emit outcome world events followed_by].
  rewrite bind_run.
  destruct (while_days _ _ _ _ o w) as [[[]|e|] w' ev]; reflexivity.
Qed.

Lemma generate_commits_summary start_date end_date w :
  valid_date start_date = true -> valid_date end_date = true ->
  let r := generate_commits start_date end_date o w in
  fatal r
  \/ (existsb tool_missing (events r) = false
      /\ days_processed (events r) = date_range start_date end_date
      /\ (outcome r = Ret tt
          \/ (outcome r = Raise overflow /\ toordinal end_date = _MAXORDINAL))).
Proof.
  intros Hs He. cbv zeta. rewrite generate_commits_run. cbv zeta.
  destruct (while_days_summary
              (Z.to_nat (days_between end_date start_date + 1))
              start_date end_date w Hs He
              ltac:(unfold days_between; lia))
    as [Hf | (Hc & Hdays & Hout)].
  - left.
    pose proof (fatal_followed_by [Printed (starting start_date end_date)] _
                  eq_refl Hf) as Hf'.
    destruct Hf as [Hout _]. unfold followed_by in Hf'.
    rewrite Hout. rewrite Hout in Hf'. exact Hf'.
  - right. destruct Hout as [Hout | [Hout Hmax]]; rewrite Hout; cbn [events outcome].
    + change (Printed (starting start_date end_date) :: ?l)
        with ([Printed (starting start_date end_date)] ++ l).
      rewrite !existsb_app, !days_processed_app, Hc, Hdays.
      cbn. rewrite app_nil_r. auto.
    + change (Printed (starting start_date end_date) :: ?l)
        with ([Printed (starting start_date end_date)] ++ l).
      rewrite !existsb_app, !days_processed_app, Hc, Hdays.
      cbn. auto.
Qed.

(** The fuel [generate_commits] gives its loop is enough: between two
    dates the routine returns, exits, or (after 9999-12-31) overflows. *)
Lemma generate_commits_terminates start_date end_date w :
  valid_date start_date = true -> valid_date end_date = true ->
  outcome (generate_commits start_date end_date o w) <> OutOfFuel.
Proof.
  intros Hs He.
  destruct (generate_commits_summary start_date end_date w Hs He)
    as [[Hout _] | (_ & _ & [Hout | [Hout _]])]; rewrite Hout; discriminate.
Qed.

(** The [__main__] block, by what it finds. *)
Lemma main_repository_exists w :
  is_Some (fs w !! ".git"%string) ->
  main o w = generate_commits START_DATE END_DATE o w.
Proof.
  intros Hgit. unfold main.
  rewrite bind_run. cbn [path_exists outcome world events].
  rewrite bool_decide_eq_true_2 by exact Hgit. cbn [negb].
  rewrite followed_by_nil, bind_run. cbn. now rewrite followed_by_nil.
Qed.

Lemma main_bootstrap_missing w :
  fs w !! ".git"%string = None ->
  executable_found o (clock w) "git" = false ->
  main o w
  = mkrun (Raise (SystemExit 1)) (tick w)
      [Printed warning_not_a_repository;
       Ran git_init (deref w os_environ) true false None;
       Printed critical_init_missing].
Proof.
  intros Hgit Hf. unfold main.
  eapply eq_trans.
  { bind_ret ltac:(apply run_path_exists).
    rewrite Hgit, bool_decide_eq_false_2 by (intros [? ?]; discriminate).
    cbn [negb].
    apply run_bind_raise.
    bind_ret ltac:(apply run_print).
    eapply run_try_caught.
    - apply run_bind_raise.
      apply run_subprocess_missing; [reflexivity | exact Hf].
    - reflexivity.
    - bind_ret ltac:(apply run_print). apply run_sys_exit. }
  reflexivity.
Qed.

Lemma main_bootstrap_failed w rc fs' :
  fs w !! ".git"%string = None ->
  executable_found o (clock w) "git" = true ->
  execute o (clock w) git_init (deref w os_environ) (fs w) = (rc, fs') ->
  rc <> 0 ->
  main o w
  = mkrun (Raise (SystemExit 1)) (tick (set_fs fs' w))
      [Printed warning_not_a_repository;
       Ran git_init (deref w os_environ) true false (Some (rc, fs'));
       Printed critical_init_failed].
Proof.
  intros Hgit Hf Hx Hrc. unfold main.
  eapply eq_trans.
  { bind_ret ltac:(apply run_path_exists).
    rewrite Hgit, bool_decide_eq_false_2 by (intros [? ?]; discriminate).
    cbn [negb].
    apply run_bind_raise.
    bind_ret ltac:(apply run_print).
    eapply run_try_caught.
    - apply run_bind_raise.
      eapply run_subprocess_failed; [reflexivity | exact Hf | exact Hx | exact Hrc].
    - reflexivity.
    - bind_ret ltac:(apply run_print). apply run_sys_exit. }
  reflexivity.
Qed.

Lemma main_bootstrap_ok w fs' :
  fs w !! ".git"%string = None ->
  executable_found o (clock w) "git" = true ->
  execute o (clock w) git_init (deref w os_environ) (fs w) = (0, fs') ->
  main o w
  = followed_by
      [Printed warning_not_a_repository;
       Ran git_init (deref w os_environ) true false (Some (0, fs'));
       Printed repository_initialized]
      (generate_commits START_DATE END_DATE o (tick (set_fs fs' w))).
Proof.
  intros Hgit Hf Hx. unfold main.
  destruct (generate_commits START_DATE END_DATE o (tick (set_fs fs' w)))
    as [out w' ev] eqn:Hgen.
  eapply eq_trans.
  { bind_ret ltac:(apply run_path_exists).
    rewrite Hgit, bool_decide_eq_false_2 by (intros [? ?]; discriminate).
    cbn [negb].
    eapply run_bind_ret with (a := tt); [|exact Hgen].
    bind_ret ltac:(apply run_print).
    eapply run_try_ret.
    bind_ret ltac:(eapply run_subprocess_ok; [reflexivity | exact Hf | exact Hx]).
    apply run_print. }
  reflexivity.
Qed.

(** A run of the whole script either finds every program it looks for or
    stops at the first one it misses. *)
Lemma main_summary w :
  existsb tool_missing (events (main o w)) = false \/ fatal (main o w).
Proof.
  assert (Hgen : forall w',
            existsb tool_missing
              (events (generate_commits START_DATE END_DATE o w')) = false
            \/ fatal (generate_commits START_DATE END_DATE o w')).
  { intros w'.
    destruct (generate_commits_summary START_DATE END_DATE w' eq_refl eq_refl)
      as [Hf | (Hc & _)]; auto. }
  destruct (fs w !! ".git"%string) as [content|] eqn:Hgit.
  { rewrite main_repository_exists by eauto. apply Hgen. }
  destruct (executable_found o (clock w) "git") eqn:Hf; cycle 1.
  { right. rewrite (main_bootstrap_missing w Hgit Hf).
    split; [reflexivity|].
    exists [Printed warning_not_a_repository], git_init, (deref w os_environ),
           true, false, critical_init_missing.
    repeat split; auto. }
  destruct (execute o (clock w) git_init (deref w os_environ) (fs w))
    as [rc fs'] eqn:Hx.
  destruct (Z.eq_dec rc 0) as [->|Hrc]; cycle 1.
  { left. rewrite (main_bootstrap_failed w rc fs' Hgit Hf Hx Hrc). reflexivity. }
  rewrite (main_bootstrap_ok w fs' Hgit Hf Hx).
  destruct (Hgen (tick (set_fs fs' w))) as [Hc | Hfatal].
  - left. cbn [followed_by events]. rewrite existsb_app, Hc. reflexivity.
  - right. now apply fatal_followed_by.
Qed.

End Loops.

(** * Timestamps *)

Section Timestamps.

Lemma digit_char_spec (k : Z) :
  0 <= k <= 9 -> is_digit (digit_char k) = true /\ digit_value (digit_char k) = k.
Proof.
  intros Hk.
  pose (P := fun k => is_digit (digit_char k)
                      && (digit_value (digit_char k) =? k)).
  assert (H : P k = true)
    by (apply (forallb_seqZ P 0 10); [now vm_compute | lia]).
  unfold P in H. apply andb_prop in H as [H1 H2]. split; [exact H1 | lia].
Qed.

(** Two-digit and four-digit fields, digit by digit. *)
Lemma format_0d_2 (n : Z) :
  0 <= n <= 99 ->
  format_0d 2 n
  = String (digit_char (n / 10)) (String (digit_char (n mod 10)) EmptyString).
Proof.
  intros Hn.
  pose (P := fun n => bool_decide
                 (format_0d 2 n
                  = String (digit_char (n / 10))
                      (String (digit_char (n mod 10)) EmptyString))).
  assert (H : P n = true)
    by (apply (forallb_seqZ P 0 100); [now vm_compute | lia]).
  unfold P in H. now apply bool_decide_eq_true in H.
Qed.

Lemma format_0d_4 (n : Z) :
  0 <= n <= 9999 ->
  format_0d 4 n
  = String (digit_char (n / 1000))
      (String (digit_char (n / 100 mod 10))
         (String (digit_char (n / 10 mod 10))
            (String (digit_char (n mod 10)) EmptyString))).
Proof.
  intros Hn.
  pose (P := fun n => bool_decide
                 (format_0d 4 n
                  = String (digit_char (n / 1000))
                      (String (digit_char (n / 100 mod 10))
                         (String (digit_char (n / 10 mod 10))
                            (String (digit_char (n mod 10)) EmptyString))))).
  assert (H : P n = true)
    by (apply (forallb_seqZ P 0 10000); [now vm_compute | lia]).
  unfold P in H. now apply bool_decide_eq_true in H.
Qed.

Lemma digits_value_2 (n : Z) :
  0 <= n <= 99 ->
  digits_value [digit_char (n / 10); digit_char (n mod 10)] = Some n.
Proof.
  intros Hn.
  destruct (digit_char_spec (n / 10) ltac:(zlia)) as [D1 V1].
  destruct (digit_char_spec (n mod 10) ltac:(zlia)) as [D2 V2].
  unfold digits_value. cbn [forallb fold_left]. rewrite D1, D2, V1, V2.
  cbn [andb]. f_equal. zlia.
Qed.

Lemma digits_value_4 (n : Z) :
  0 <= n <= 9999 ->
  digits_value [digit_char (n / 1000); digit_char (n / 100 mod 10);
                digit_char (n / 10 mod 10); digit_char (n mod 10)] = Some n.
Proof.
  intros Hn.
  destruct (digit_char_spec (n / 1000) ltac:(zlia)) as [D1 V1].
  destruct (digit_char_spec (n / 100 mod 10) ltac:(zlia)) as [D2 V2].
  destruct (digit_char_spec (n / 10 mod 10) ltac:(zlia)) as [D3 V3].
  destruct (digit_char_spec (n mod 10) ltac:(zlia)) as [D4 V4].
  unfold digits_value. cbn [forallb fold_left]. rewrite D1, D2, D3, D4, V1, V2, V3, V4.
  cbn [andb]. f_equal. zlia.
Qed.

(** A timestamp reads back as the date and the time it was made of. *)
Lemma parse_timestamp_timestamp (d : date) (h m s : Z) :
  valid_date d = true -> 0 <= h <= 99 -> 0 <= m <= 99 -> 0 <= s <= 99 ->
  parse_timestamp (timestamp d (h, m, s))
  = Some (year d, month d, day d, h, m, s).
Proof.
  intros Hd Hh Hm Hs.
  apply valid_date_iff in Hd as (Hy & Hmo & Hda).
  rewrite days_in_month_unfold in Hda.
  pose proof (months_spec (_is_leap (year d)) (month d) Hmo) as (_ & Hin & _).
  unfold timestamp, isoformat.
  rewrite (format_0d_4 (year d)) by lia.
  rewrite (format_0d_2 (month d)), (format_0d_2 (day d)) by lia.
  rewrite (format_0d_2 h), (format_0d_2 m), (format_0d_2 s) by lia.
  unfold parse_timestamp.
  cbv beta iota delta [String.append list_ascii_of_string].
  change (Ascii.eqb "-" "-") with true.
  change (Ascii.eqb " " " ") with true.
  change (Ascii.eqb ":" ":") with true.
  cbn [andb].
  rewrite digits_value_4 by lia.
  rewrite !digits_value_2 by lia.
  reflexivity.
Qed.

End Timestamps.

(** * The claims *)

(** Membership in a trace that is written out. *)
Ltac trace_inv H :=
  unfold git_add, git_commit, git_init in H;
  repeat (apply elem_of_cons in H as [H|H]);
  try (apply elem_of_nil in H; contradiction);
  try discriminate H.

(** The cases of [commit], with the events of the lock handler spelled
    out. *)
Ltac commit_inv o w d msg :=
  let E := fresh "E" in
  destruct (commit_cases o w d msg) as [?e|?e| |?rc ?fs2 ?Hrc|?fs2|?fs2 ?rc ?fs3 ?Hrc|?fs2 ?fs3];
  [ | | | destruct (unlock_events_cases fs2) as [E|E]; rewrite E
    | | destruct (unlock_events_cases fs3) as [E|E]; rewrite E | ];
  cbn [events outcome world app] in *.

Section Claims.

(** C1. Whenever [commit] runs [git commit], the environment of that child
    process gives [GIT_AUTHOR_DATE] and [GIT_COMMITTER_DATE] one and the
    same string; the string has the shape [YYYY-MM-DD HH:MM:SS], its date is
    the day [commit] was called for, and its time lies between 09:00:00 and
    17:59:59. *)
Theorem commit_stamps_both_dates o w d msg env so se ans :
  valid_date d = true ->
  Ran ["git"; "commit"; "-m"; msg]%string env so se ans
    ∈ events (commit d msg o w) ->
  exists hours minutes seconds t,
    9 <= hours <= 17 /\ 0 <= minutes <= 59 /\ 0 <= seconds <= 59
    /\ env !! "GIT_AUTHOR_DATE"%string = Some t
    /\ env !! "GIT_COMMITTER_DATE"%string = Some t
    /\ parse_timestamp t
       = Some (year d, month d, day d, hours, minutes, seconds).
Proof.
  intros Hd Hin.
  assert (Henv : env = child_env o w d).
  { destruct (commit_cases o w d msg)
      as [e|e| |rc fs2 Hrc|fs2|fs2 rc fs3 Hrc|fs2 fs3]; cbn [events] in Hin.
    - trace_inv Hin.
    - trace_inv Hin.
    - trace_inv Hin.
    - destruct (unlock_events_cases fs2) as [E|E]; rewrite E in Hin;
        cbn [app] in Hin; trace_inv Hin.
    - trace_inv Hin. now inversion Hin.
    - destruct (unlock_events_cases fs3) as [E|E]; rewrite E in Hin;
        cbn [app] in Hin; trace_inv Hin; now inversion Hin.
    - trace_inv Hin. now inversion Hin. }
  subst env.
  pose proof (draw_range o (clock w) 9 17 ltac:(lia)) as Hh.
  pose proof (draw_range o (1 + clock w) 0 59 ltac:(lia)) as Hm.
  pose proof (draw_range o (2 + clock w) 0 59 ltac:(lia)) as Hs.
  exists (draw o (clock w) 9 17), (draw o (1 + clock w) 0 59),
         (draw o (2 + clock w) 0 59), (timestamp d (commit_time o w)).
  repeat split; try lia.
  - unfold child_env. apply lookup_insert_eq.
  - unfold child_env. rewrite lookup_insert_ne by discriminate.
    apply lookup_insert_eq.
  - unfold commit_time. apply parse_timestamp_timestamp; [assumption | lia..].
Qed.


(** ** The days of the range *)







(** C6. When a run of the script looks for a program and does not find it,
    the run ends there: after the failed lookup it prints one message and
    exits with status 1, and nothing else happens, no further commit and
    no further day.  The lookup is the [git init] of the bootstrap or the
    [git add] or [git commit] of a commit. *)
Theorem missing_tool_is_fatal o w :
  existsb tool_missing (events (main o w)) = true ->
  outcome (main o w) = Raise (SystemExit 1)
  /\ exit_status (outcome (main o w)) = Some 1
  /\ exists pre args env so se line,
       events (main o w) = pre ++ [Ran args env so se None; Printed line]
       /\ existsb tool_missing pre = false
       /\ (args = ["git"; "init"]%string
           \/ args = ["git"; "add"; ".tmpfile"]%string
           \/ exists msg, args = ["git"; "commit"; "-m"; msg]%string).
Proof.
  intros Hmissing.
  destruct (main_summary o w) as [Hclean | [Hout Hshape]]; [congruence|].
  split; [exact Hout|]. split; [now rewrite Hout|]. exact Hshape.
Qed.

(** What the loop over the commits of a day does after a call that
    returned. *)
Lemma for_each_continues {A} (x : A) (xs : list A) (body : A -> M unit) o w :
  outcome (body x o w) = Ret tt ->
  for_each (x :: xs) body o w
  = followed_by (events (body x o w)) (for_each xs body o (world (body x o w))).
Proof. intros H. cbn [for_each]. now apply seq_ret. Qed.


(** C8. When the scratch file cannot be opened or written, [commit]
    catches the error, prints it, runs no program, and returns, so that
    the loop goes on with the next commit. *)
Theorem write_failure_is_contained o w d msg :
  existsb io_failed (events (commit d msg o w)) = true ->
  outcome (commit d msg o w) = Ret tt
  /\ (exists e,
        (Opened ".tmpfile" (Some e) ∈ events (commit d msg o w)
         \/ exists data,
              Written ".tmpfile" data (Some e) ∈ events (commit d msg o w))
        /\ last (events (commit d msg o w))
           = Some (Printed ("Error writing to .tmpfile: " +:+ e)))
  /\ existsb is_run (events (commit d msg o w)) = false
  /\ forall (A : Type) (x : A) (xs : list A) (f : A -> string),
       f x = msg ->
       for_each (x :: xs) (fun i => commit d (f i)) o w
       = followed_by (events (commit d msg o w))
           (for_each xs (fun i => commit d (f i)) o
              (world (commit d msg o w))).
Proof.
  intros Hfail.
  assert (Hnext : outcome (commit d msg o w) = Ret tt ->
            forall (A : Type) (x : A) (xs : list A) (f : A -> string),
              f x = msg ->
              for_each (x :: xs) (fun i => commit d (f i)) o w
              = followed_by (events (commit d msg o w))
                  (for_each xs (fun i => commit d (f i)) o
                     (world (commit d msg o w)))).
  { intros Hout A x xs f Hf.
    rewrite (for_each_continues x xs (fun i => commit d (f i))); rewrite Hf;
      [reflexivity | exact Hout]. }
  revert Hnext.
  destruct (commit_cases o w d msg)
    as [e|e| |rc' fs2' Hrc'|fs2'|fs2' rc' fs3' Hrc'|fs2' fs3'];
    cbn [events outcome world fs] in *; intros Hnext.
  - split; [reflexivity|]. split; [|split; [reflexivity | now apply Hnext]].
    exists e. split; [|reflexivity]. left. apply list_elem_of_here.
  - split; [reflexivity|]. split; [|split; [reflexivity | now apply Hnext]].
    exists e. split; [|reflexivity]. right. eexists.
    apply list_elem_of_further, list_elem_of_here.
  - discriminate Hfail.
  - destruct (unlock_events_cases fs2') as [E|E]; rewrite E in Hfail;
      discriminate Hfail.
  - discriminate Hfail.
  - destruct (unlock_events_cases fs3') as [E|E]; rewrite E in Hfail;
      discriminate Hfail.
  - discriminate Hfail.
Qed.

(** C9. When the start date is after the end date, [generate_commits]
    prints its two notices and returns: no day begins, nothing is written,
    no program is run, and the world is as it was. *)
Theorem empty_range_does_nothing o w start_date end_date :
  date_le start_date end_date = false ->
  generate_commits start_date end_date o w
  = mkrun (Ret tt) w
      [Printed ("Starting commit generation from " +:+ isoformat start_date
              +:+ " to " +:+ isoformat end_date +:+ "...");
       Printed "Generation complete. Don't forget to push your changes to the remote repository!"].
Proof.
  intros Hlt. rewrite generate_commits_run. cbv zeta.
  assert (Hloop : forall fuel,
            while_days fuel start_date end_date 1 o w = mkrun (Ret tt) w []).
  { intros fuel. destruct fuel; cbn [while_days]; rewrite Hlt; reflexivity. }
  rewrite Hloop. reflexivity.
Qed.

(** C10. [commit] leaves the dictionary of [os.environ] as it was: the two
    timestamps are written to a copy, which is a different object. *)
Theorem commit_preserves_environ o w d msg :
  heap (world (commit d msg o w)) !! os_environ = heap w !! os_environ.
Proof.
  assert (Hwritten : heap (world_written o w d msg) !! os_environ
                     = heap w !! os_environ).
  { unfold world_written. cbn [heap].
    apply lookup_insert_ne, child_env_loc_fresh. }
  destruct (commit_cases o w d msg); cbn [world heap]; auto.
Qed.

End Claims.

(** * The theorems at work, and the claims the code does not meet *)

Section Runs.

(** In the steady world the one commit of 2023-05-12 is stamped
    10:01:01. *)
Lemma commit_stamps_both_dates_witness :
  valid_date START_DATE = true
  /\ exists hours minutes seconds t,
       9 <= hours <= 17 /\ 0 <= minutes <= 59 /\ 0 <= seconds <= 59
       /\ child_env steady world0 START_DATE !! "GIT_AUTHOR_DATE"%string = Some t
       /\ child_env steady world0 START_DATE !! "GIT_COMMITTER_DATE"%string
          = Some t
       /\ parse_timestamp t = Some (2023, 5, 12, hours, minutes, seconds).
Proof.
  split; [reflexivity|].
  apply (commit_stamps_both_dates steady world0 START_DATE "one"
           (child_env steady world0 START_DATE) true true
           (Some (0, <[".tmpfile"%string := scratch_data steady world0 "one"]>
                       (fs world0)))).
  - reflexivity.
  - apply list_elem_of_lookup_2 with 3%nat. vm_compute. reflexivity.
Defined.







Lemma missing_tool_is_fatal_witness :
  existsb tool_missing (events (main no_git world0)) = true
  /\ outcome (main no_git world0) = Raise (SystemExit 1)
  /\ exit_status (outcome (main no_git world0)) = Some 1.
Proof.
  assert (H : existsb tool_missing (events (main no_git world0)) = true)
    by (vm_compute; reflexivity).
  destruct (missing_tool_is_fatal no_git world0 H) as (Hout & Hexit & _).
  auto.
Defined.


Lemma write_failure_is_contained_witness :
  existsb io_failed (events (commit START_DATE "one" disk_full world0)) = true
  /\ outcome (commit START_DATE "one" disk_full world0) = Ret tt
  /\ existsb is_run (events (commit START_DATE "one" disk_full world0)) = false.
Proof.
  assert (H : existsb io_failed
                (events (commit START_DATE "one" disk_full world0)) = true)
    by (vm_compute; reflexivity).
  destruct (write_failure_is_contained disk_full world0 START_DATE "one" H)
    as (Hout & _ & Hrun & _).
  auto.
Defined.

Lemma empty_range_does_nothing_witness :
  date_le END_DATE START_DATE = false
  /\ generate_commits END_DATE START_DATE steady world0
     = mkrun (Ret tt) world0
         [Printed "Starting commit generation from 2023-08-09 to 2023-05-12...";
          Printed "Generation complete. Don't forget to push your changes to the remote repository!"].
Proof.
  split; [reflexivity|].
  apply (empty_range_does_nothing steady world0 END_DATE START_DATE).
  reflexivity.
Defined.

End Runs.

(** * Further properties of the script *)

(** ** What holds of every event of a run *)

Section Everywhere.

Variable P : event -> Prop.

Lemma Forall_bind {A B} (m : M A) (k : A -> M B) o w :
  Forall P (events (m o w)) ->
  (forall a, outcome (m o w) = Ret a ->
             Forall P (events (k a o (world (m o w))))) ->
  Forall P (events ((m ≫= k) o w)).
Proof.
  intros Hm Hk. rewrite bind_run.
  destruct (outcome (m o w)) as [a| |] eqn:Hout; cbn [events followed_by];
    [|assumption..].
  apply Forall_app. split; [assumption | now apply Hk].
Qed.

Lemma Forall_try {A} (body : M A) handler o w :
  Forall P (events (body o w)) ->
  (forall e h, outcome (body o w) = Raise e -> handler e = Some h ->
               Forall P (events (h o (world (body o w))))) ->
  Forall P (events (try_except body handler o w)).
Proof.
  intros Hb Hh. unfold try_except.
  destruct (outcome (body o w)) as [a|e|] eqn:Hout; [assumption| |assumption].
  destruct (handler e) as [h|] eqn:He; [|assumption].
  cbn [events]. apply Forall_app. split; [assumption | now apply (Hh e)].
Qed.

Lemma Forall_for_each {A} (xs : list A) (body : A -> M unit) o :
  (forall x w, x ∈ xs -> Forall P (events (body x o w))) ->
  forall w, Forall P (events (for_each xs body o w)).
Proof.
  induction xs as [|x xs IH]; intros Hbody w; [constructor|].
  cbn [for_each]. apply Forall_bind.
  - apply Hbody, list_elem_of_here.
  - intros _ _. apply IH. intros y w' Hy.
    now apply Hbody, list_elem_of_further.
Qed.

Lemma Forall_process_day o w d :
  P (DayBegan d) ->
  Forall P (day_banner d (draw o (clock w) MIN_COMMITS_PER_DAY
                            MAX_COMMITS_PER_DAY)) ->
  (forall i w',
      0 <= i < draw o (clock w) MIN_COMMITS_PER_DAY MAX_COMMITS_PER_DAY ->
      Forall P (events (commit d
                          (commit_message i
                             (draw o (clock w) MIN_COMMITS_PER_DAY
                                MAX_COMMITS_PER_DAY) d) o w'))) ->
  Forall P (events (process_day d o w)).
Proof.
  intros Hday Hbanner Hcommit. rewrite process_day_run. cbv zeta.
  cbn [followed_by events]. constructor; [exact Hday|].
  apply Forall_app. split; [exact Hbanner|].
  apply Forall_for_each. intros i w' Hi. apply Hcommit.
  unfold range in Hi. apply elem_of_seqZ in Hi. lia.
Qed.

Lemma Forall_while_days o end_date delta :
  (forall d w, Forall P (events (process_day d o w))) ->
  forall fuel current_date w,
    Forall P (events (while_days fuel current_date end_date delta o w)).
Proof.
  intros Hday. induction fuel as [|fuel IH]; intros cur w; cbn [while_days];
    destruct (date_le cur end_date); try constructor.
  apply Forall_bind; [apply Hday|]. intros _ _.
  apply Forall_bind.
  - unfold date_plus. destruct (date_add_days cur delta); constructor.
  - intros d' _. apply IH.
Qed.

End Everywhere.

Section Further.

(** ** [commit] *)

Lemma hex_length bs : String.length (hex bs) = (2 * length bs)%nat.
Proof. induction bs as [|b bs IH]; cbn [hex String.length length]; lia. Qed.

Lemma hex_digits bs :
  forallb is_hex_digit (list_ascii_of_string (hex bs)) = true.
Proof.
  induction bs as [|b bs IH]; [reflexivity|].
  cbn [hex list_ascii_of_string forallb]. rewrite IH.
  destruct b; reflexivity.
Qed.

(** X1. Whatever [commit] writes, it writes to [.tmpfile], and the text is
    the message, a line feed, sixteen lower-case hexadecimal digits and a
    line feed. *)
Theorem scratch_file_content o w d msg path data err :
  Written path data err ∈ events (commit d msg o w) ->
  path = ".tmpfile"%string
  /\ exists payload,
       data = msg +:+ newline +:+ payload +:+ newline
       /\ String.length payload = 16%nat
       /\ forallb is_hex_digit (list_ascii_of_string payload) = true.
Proof.
  intros Hin.
  assert (Heq : path = ".tmpfile"%string /\ data = scratch_data o w msg).
  { destruct (commit_cases o w d msg)
      as [e|e| |rc fs2 Hrc|fs2|fs2 rc fs3 Hrc|fs2 fs3]; cbn [events] in Hin;
      try (destruct (unlock_events_cases fs2) as [E|E]; rewrite E in Hin);
      try (destruct (unlock_events_cases fs3) as [E|E]; rewrite E in Hin);
      cbn [app] in Hin; trace_inv Hin; now inversion Hin. }
  destruct Heq as [-> ->]. split; [reflexivity|].
  eexists. split; [reflexivity|]. split; [apply hex_length | apply hex_digits].
Qed.

(** X2. The child environments. [git add] gets the dictionary of
    [os.environ] as it is; [git commit] gets it with the two dates set, and
    every other variable as in [os.environ]. *)
Theorem child_environment_extends_environ o w d msg args env so se ans :
  Ran args env so se ans ∈ events (commit d msg o w) ->
  (args = ["git"; "add"; ".tmpfile"]%string -> env = deref w os_environ)
  /\ (args = ["git"; "commit"; "-m"; msg]%string ->
      forall key,
        key <> "GIT_AUTHOR_DATE"%string ->
        key <> "GIT_COMMITTER_DATE"%string ->
        env !! key = deref w os_environ !! key).
Proof.
  intros Hin.
  assert (Henv : (args = git_add /\ env = deref w os_environ)
                 \/ (args = git_commit msg /\ env = child_env o w d)).
  { destruct (commit_cases o w d msg)
      as [e|e| |rc fs2 Hrc|fs2|fs2 rc fs3 Hrc|fs2 fs3]; cbn [events] in Hin;
      try (destruct (unlock_events_cases fs2) as [E|E]; rewrite E in Hin);
      try (destruct (unlock_events_cases fs3) as [E|E]; rewrite E in Hin);
      cbn [app] in Hin; trace_inv Hin; inversion Hin; auto. }
  destruct Henv as [[-> ->] | [-> ->]]; split; intros Hargs; try discriminate;
    try reflexivity.
  intros key Ha Hc. unfold child_env.
  rewrite !lookup_insert_ne by congruence. reflexivity.
Qed.

(** X3. The programs [commit] runs: none, or [git add], or [git add] and
    then [git commit], the second only after the first ended with status
    0; each with both output streams discarded. *)
Theorem commit_runs_add_then_commit o w d msg :
  programs_run (events (commit d msg o w)) = []
  \/ (exists answer,
        programs_run (events (commit d msg o w))
        = [Ran ["git"; "add"; ".tmpfile"]%string (deref w os_environ)
               true true answer])
  \/ (exists fs2 env answer,
        programs_run (events (commit d msg o w))
        = [Ran ["git"; "add"; ".tmpfile"]%string (deref w os_environ)
               true true (Some (0, fs2));
           Ran ["git"; "commit"; "-m"; msg]%string env true true answer]).
Proof.
  unfold programs_run.
  destruct (commit_cases o w d msg)
    as [e|e| |rc fs2 Hrc|fs2|fs2 rc fs3 Hrc|fs2 fs3]; cbn [events];
    try (destruct (unlock_events_cases fs2) as [E|E]; rewrite E);
    try (destruct (unlock_events_cases fs3) as [E|E]; rewrite E);
    cbn; eauto 8.
Qed.


(** X5. [commit] removes no file but [.git/index.lock], and that one only
    after a git command that ended with a non-zero status and left the
    lock behind; when [commit] is over the lock is gone. *)
Theorem only_a_stale_lock_is_removed o w d msg path :
  Removed path ∈ events (commit d msg o w) ->
  path = ".git/index.lock"%string
  /\ (exists args env so se rc files,
        Ran args env so se (Some (rc, files)) ∈ events (commit d msg o w)
        /\ rc <> 0 /\ is_Some (files !! path))
  /\ fs (world (commit d msg o w)) !! path = None.
Proof.
  intros Hin.
  assert (Hlock : forall f, unlock_events f <> [] -> is_Some (f !! lock_path)).
  { intros f Hne. unfold unlock_events in Hne. now case_bool_decide. }
  destruct (commit_cases o w d msg)
    as [e|e| |rc fs2 Hrc|fs2|fs2 rc fs3 Hrc|fs2 fs3];
    cbn [events world fs] in *.
  - trace_inv Hin.
  - trace_inv Hin.
  - trace_inv Hin.
  - destruct (unlock_events_cases fs2) as [E|E]; rewrite E in *;
      cbn [app] in *; trace_inv Hin.
    inversion Hin; subst path. split; [reflexivity|]. split.
    + do 6 eexists. split; [apply list_elem_of_further, list_elem_of_further,
                                  list_elem_of_here|].
      split; [exact Hrc|]. apply Hlock. rewrite E. discriminate.
    + apply lookup_delete_eq.
  - trace_inv Hin.
  - destruct (unlock_events_cases fs3) as [E|E]; rewrite E in *;
      cbn [app] in *; trace_inv Hin.
    inversion Hin; subst path. split; [reflexivity|]. split.
    + do 6 eexists. split; [do 3 apply list_elem_of_further;
                            apply list_elem_of_here|].
      split; [exact Hrc|]. apply Hlock. rewrite E. discriminate.
    + apply lookup_delete_eq.
  - trace_inv Hin.
Qed.


End Further.

Section FurtherLoops.

(** ** The commits of a day *)

Lemma commit_messages_app ev1 ev2 :
  commit_messages (ev1 ++ ev2) = commit_messages ev1 ++ commit_messages ev2.
Proof. apply omap_app. Qed.

Lemma commit_messages_unlock f : commit_messages (unlock_events f) = [].
Proof. destruct (unlock_events_cases f) as [-> | ->]; reflexivity. Qed.

Lemma commit_messages_commit o w d msg :
  commit_messages (events (commit d msg o w)) = []
  \/ commit_messages (events (commit d msg o w)) = [msg].
Proof.
  destruct (commit_cases o w d msg)
    as [e|e| |rc fs2 Hrc|fs2|fs2 rc fs3 Hrc|fs2 fs3]; cbn [events];
    rewrite ?commit_messages_app, ?commit_messages_unlock;
    try (left; reflexivity).
  - left. destruct rc; reflexivity.
  - left. destruct rc; [contradiction | reflexivity..].
  - right. reflexivity.
Qed.

Lemma commit_messages_banner d n : commit_messages (day_banner d n) = [].
Proof. unfold day_banner. now destruct (n >? 0). Qed.

(** X7. The commits made on a day carry the messages of the day in their
    order: with [n] the draw of the day, the messages of the commits that
    git accepted are taken, in order and each at most once, from the
    messages of [range(n)], which read "Simulated activity commit 1/n on
    date" up to "... n/n on date". *)
Theorem commits_of_a_day_are_numbered o w d :
  commit_messages (events (process_day d o w))
  `sublist_of`
  ((fun i =>
      commit_message i
        (draw o (clock w) MIN_COMMITS_PER_DAY MAX_COMMITS_PER_DAY) d)
   <$> range (draw o (clock w) MIN_COMMITS_PER_DAY MAX_COMMITS_PER_DAY)).
Proof.
  rewrite process_day_run. cbv zeta.
  set (n := draw o (clock w) MIN_COMMITS_PER_DAY MAX_COMMITS_PER_DAY).
  cbn [followed_by events].
  change (DayBegan d :: day_banner d n) with ([DayBegan d] ++ day_banner d n).
  rewrite !commit_messages_app, commit_messages_banner.
  change (commit_messages [DayBegan d]) with (@nil string). cbn [app].
  unfold range. generalize (tick w). generalize (seqZ 0 n).
  induction l as [|i l IH]; intros w'.
  - constructor.
  - cbn [for_each fmap list_fmap]. rewrite bind_run.
    destruct (commit_messages_commit o w' d (commit_message i n d)) as [Hm|Hm];
      destruct (outcome (commit d (commit_message i n d) o w')) as [[]| |];
      cbn [events followed_by]; rewrite ?commit_messages_app, Hm; cbn [app].
    + apply sublist_cons, IH.
    + apply sublist_nil_l.
    + apply sublist_nil_l.
    + apply sublist_skip, IH.
    + apply sublist_skip, sublist_nil_l.
    + apply sublist_skip, sublist_nil_l.
Qed.

(** ** The whole range *)








End FurtherLoops.

Section FurtherMain.

(** ** The programs of a run *)

Lemma generate_commits_runs_git o w start_date end_date :
  Forall runs_add_or_commit
         (events (generate_commits start_date end_date o w)).
Proof.
  rewrite generate_commits_run. cbv zeta.
  assert (Hloop : forall fuel,
            Forall runs_add_or_commit
                   (events (while_days fuel start_date end_date 1 o w))).
  { intros fuel. apply Forall_while_days. clear. intros d w.
    pose proof (draw_range o (clock w) MIN_COMMITS_PER_DAY MAX_COMMITS_PER_DAY
                  ltac:(unfold MIN_COMMITS_PER_DAY, MAX_COMMITS_PER_DAY; lia))
      as Hn.
    apply Forall_process_day.
    - exact I.
    - unfold day_banner. destruct (_ >? 0); repeat constructor.
    - intros i w' Hi.
      assert (Hmsg : exists i' n' d',
                git_commit (commit_message i
                              (draw o (clock w) MIN_COMMITS_PER_DAY
                                 MAX_COMMITS_PER_DAY) d)
                = git_commit (commit_message i' n' d')
                /\ 0 <= i' < n' /\ n' <= MAX_COMMITS_PER_DAY)
        by (do 3 eexists; split; [reflexivity | lia]).
      destruct (commit_cases o w' d (commit_message i
                  (draw o (clock w) MIN_COMMITS_PER_DAY MAX_COMMITS_PER_DAY) d))
        as [e|e| |rc fs2 Hrc|fs2|fs2 rc fs3 Hrc|fs2 fs3]; cbn [events];
        try (destruct (unlock_events_cases fs2) as [E|E]; rewrite E);
        try (destruct (unlock_events_cases fs3) as [E|E]; rewrite E);
        cbn [app];
        repeat (apply List.Forall_cons || apply List.Forall_nil);
        try exact I; cbn; auto. }
  specialize (Hloop (Z.to_nat (days_between end_date start_date + 1))).
  destruct (outcome (while_days _ _ _ _ o w)) as [[]| |]; cbn [events];
    try (constructor; [exact I | assumption]).
  constructor; [exact I|]. apply Forall_app. split; [assumption|].
  repeat constructor.
Qed.

(** X11. Inside a repository the script starts the generation at once:
    no warning, no [git init]. *)
Theorem repository_is_not_initialized_twice o w :
  is_Some (fs w !! ".git"%string) ->
  main o w = generate_commits START_DATE END_DATE o w
  /\ forall env so se answer,
       Ran ["git"; "init"]%string env so se answer ∉ events (main o w).
Proof.
  intros Hgit.
  rewrite (main_repository_exists o w Hgit). split; [reflexivity|].
  intros env so se answer Hin.
  pose proof (generate_commits_runs_git o w START_DATE END_DATE) as Hall.
  rewrite Forall_forall in Hall. specialize (Hall _ Hin).
  destruct Hall as (_ & _ & [Hargs | (i & n & d & Hargs & _)]); discriminate.
Qed.

(** X12. Outside a repository, when [git init] ends with a non-zero
    status the script prints the warning and the error and exits with
    status 1: no day begins, nothing is written, no commit is attempted.
    The error output of [git init] is not discarded. *)
Theorem failed_init_is_fatal o w rc files :
  fs w !! ".git"%string = None ->
  executable_found o (clock w) "git" = true ->
  execute o (clock w) ["git"; "init"]%string (deref w os_environ) (fs w)
  = (rc, files) ->
  rc <> 0 ->
  main o w
  = mkrun (Raise (SystemExit 1)) (mkWorld (heap w) files (S (clock w)))
      [Printed "WARNING: Current folder is not a Git repository. Initializing...";
       Ran ["git"; "init"]%string (deref w os_environ) true false
           (Some (rc, files));
       Printed "CRITICAL ERROR: Failed to initialize Git repository."]
  /\ exit_status (outcome (main o w)) = Some 1.
Proof.
  intros Hgit Hf Hx Hrc.
  rewrite (main_bootstrap_failed o w rc files Hgit Hf Hx Hrc).
  split; reflexivity.
Qed.

(** X13. Outside a repository, when [git init] succeeds the script says so
    and then runs the generation, in the directory as [git init] left
    it. *)
Theorem successful_init_is_followed_by_generation o w files :
  fs w !! ".git"%string = None ->
  executable_found o (clock w) "git" = true ->
  execute o (clock w) ["git"; "init"]%string (deref w os_environ) (fs w)
  = (0, files) ->
  main o w
  = followed_by
      [Printed "WARNING: Current folder is not a Git repository. Initializing...";
       Ran ["git"; "init"]%string (deref w os_environ) true false
           (Some (0, files));
       Printed "Git repository successfully initialized."]
      (generate_commits START_DATE END_DATE o
         (mkWorld (heap w) files (S (clock w)))).
Proof.
  intros Hgit Hf Hx. exact (main_bootstrap_ok o w files Hgit Hf Hx).
Qed.


(** X15. The script runs no program but git, and only three commands of
    it: [git init], with its standard output discarded, and [git add
    .tmpfile] and [git commit -m message], with both streams discarded,
    where the message is that of commit [i + 1] of [n] of some day, with
    [n] at most [MAX_COMMITS_PER_DAY]. *)
Theorem script_runs_only_git o w args env so se answer :
  Ran args env so se answer ∈ events (main o w) ->
  so = true
  /\ ((args = ["git"; "init"]%string /\ se = false)
      \/ (se = true
          /\ (args = ["git"; "add"; ".tmpfile"]%string
              \/ exists i n d,
                   args = ["git"; "commit"; "-m";
                           "Simulated activity commit " +:+ str_int (i + 1)
                           +:+ "/" +:+ str_int n +:+ " on " +:+ isoformat d]%string
                   /\ 0 <= i < n /\ n <= MAX_COMMITS_PER_DAY))).
Proof.
  intros Hin.
  assert (Hgen : forall w',
            Ran args env so se answer
              ∈ events (generate_commits START_DATE END_DATE o w') ->
            so = true
            /\ ((args = ["git"; "init"]%string /\ se = false)
                \/ (se = true
                    /\ (args = git_add
                        \/ exists i n d,
                             args = git_commit (commit_message i n d)
                             /\ 0 <= i < n /\ n <= MAX_COMMITS_PER_DAY)))).
  { intros w' H.
    pose proof (generate_commits_runs_git o w' START_DATE END_DATE) as Hall.
    rewrite Forall_forall in Hall. destruct (Hall _ H) as (-> & -> & Hargs).
    auto. }
  destruct (fs w !! ".git"%string) as [content|] eqn:Hgit.
  { rewrite (main_repository_exists o w) in Hin by eauto. now apply (Hgen w). }
  destruct (executable_found o (clock w) "git") eqn:Hf; cycle 1.
  { rewrite (main_bootstrap_missing o w Hgit Hf) in Hin. cbn [events] in Hin.
    trace_inv Hin. inversion Hin. auto. }
  destruct (execute o (clock w) git_init (deref w os_environ) (fs w))
    as [rc files] eqn:Hx.
  destruct (Z.eq_dec rc 0) as [->|Hrc]; cycle 1.
  { rewrite (main_bootstrap_failed o w rc files Hgit Hf Hx Hrc) in Hin.
    cbn [events] in Hin. trace_inv Hin. inversion Hin. auto. }
  rewrite (main_bootstrap_ok o w files Hgit Hf Hx) in Hin.
  cbn [followed_by events] in Hin. apply elem_of_app in Hin as [Hin|Hin].
  - trace_inv Hin. inversion Hin. auto.
  - eapply Hgen. exact Hin.
Qed.

End FurtherMain.

(** ** The further properties at work *)

Section FurtherRuns.

Lemma scratch_file_content_witness :
  Written ".tmpfile" (scratch_data steady world0 "one") None
    ∈ events (commit START_DATE "one" steady world0)
  /\ exists payload,
       scratch_data steady world0 "one"
       = "one" +:+ newline +:+ payload +:+ newline
       /\ String.length payload = 16%nat.
Proof.
  assert (Hin : Written ".tmpfile" (scratch_data steady world0 "one") None
                  ∈ events (commit START_DATE "one" steady world0))
    by (apply list_elem_of_lookup_2 with 1%nat; vm_compute; reflexivity).
  split; [exact Hin|].
  destruct (scratch_file_content steady world0 START_DATE "one" _ _ _ Hin)
    as (_ & payload & Hdata & Hlen & _).
  eauto.
Defined.

Lemma child_environment_extends_environ_witness :
  Ran ["git"; "commit"; "-m"; "one"]%string
      (child_env steady world0 START_DATE) true true
      (Some (0, <[".tmpfile"%string := scratch_data steady world0 "one"]>
                  (fs world0)))
    ∈ events (commit START_DATE "one" steady world0)
  /\ child_env steady world0 START_DATE !! "PATH"%string
     = deref world0 os_environ !! "PATH"%string.
Proof.
  assert (Hin : Ran ["git"; "commit"; "-m"; "one"]%string
                    (child_env steady world0 START_DATE) true true
                    (Some (0, <[".tmpfile"%string
                                  := scratch_data steady world0 "one"]>
                                (fs world0)))
                  ∈ events (commit START_DATE "one" steady world0))
    by (apply list_elem_of_lookup_2 with 3%nat; vm_compute; reflexivity).
  split; [exact Hin|].
  destruct (child_environment_extends_environ steady world0 START_DATE "one"
              _ _ _ _ _ Hin) as [_ Hframe].
  apply Hframe; [reflexivity | discriminate | discriminate].
Defined.

Lemma only_a_stale_lock_is_removed_witness :
  Removed ".git/index.lock"
    ∈ events (commit START_DATE "one" (commit_fails true) world0)
  /\ fs (world (commit START_DATE "one" (commit_fails true) world0))
       !! ".git/index.lock"%string = None.
Proof.
  assert (Hin : Removed ".git/index.lock"
                  ∈ events (commit START_DATE "one" (commit_fails true) world0))
    by (apply list_elem_of_lookup_2 with 5%nat; vm_compute; reflexivity).
  split; [exact Hin|].
  destruct (only_a_stale_lock_is_removed (commit_fails true) world0
              START_DATE "one" _ Hin) as (_ & _ & Hgone).
  exact Hgone.
Defined.




Lemma repository_is_not_initialized_twice_witness :
  is_Some (fs world0 !! ".git"%string)
  /\ main steady world0 = generate_commits START_DATE END_DATE steady world0.
Proof.
  assert (Hgit : is_Some (fs world0 !! ".git"%string))
    by (exists EmptyString; reflexivity).
  split; [exact Hgit|].
  destruct (repository_is_not_initialized_twice steady world0 Hgit) as [Heq _].
  exact Heq.
Defined.

Lemma failed_init_is_fatal_witness :
  fs world_bare !! ".git"%string = None
  /\ executable_found init_fails (clock world_bare) "git" = true
  /\ execute init_fails (clock world_bare) ["git"; "init"]%string
       (deref world_bare os_environ) (fs world_bare) = (128, fs world_bare)
  /\ 128 <> 0
  /\ exit_status (outcome (main init_fails world_bare)) = Some 1.
Proof.
  assert (Hx : execute init_fails (clock world_bare) ["git"; "init"]%string
                 (deref world_bare os_environ) (fs world_bare)
               = (128, fs world_bare)) by (vm_compute; reflexivity).
  assert (Hrc : 128 <> 0) by lia.
  destruct (failed_init_is_fatal init_fails world_bare 128 (fs world_bare)
              eq_refl eq_refl Hx Hrc) as [_ Hexit].
  split; [reflexivity|]. split; [reflexivity|]. split; [exact Hx|].
  split; [exact Hrc | exact Hexit].
Defined.

Lemma successful_init_is_followed_by_generation_witness :
  fs world_bare !! ".git"%string = None
  /\ executable_found init_works (clock world_bare) "git" = true
  /\ execute init_works (clock world_bare) ["git"; "init"]%string
       (deref world_bare os_environ) (fs world_bare)
     = (0, <[".git"%string := EmptyString]> (fs world_bare))
  /\ main init_works world_bare
     = followed_by
         [Printed "WARNING: Current folder is not a Git repository. Initializing...";
          Ran ["git"; "init"]%string (deref world_bare os_environ) true false
              (Some (0, <[".git"%string := EmptyString]> (fs world_bare)));
          Printed "Git repository successfully initialized."]
         (generate_commits START_DATE END_DATE init_works
            (mkWorld (heap world_bare)
                     (<[".git"%string := EmptyString]> (fs world_bare))
                     (S (clock world_bare)))).
Proof.
  assert (Hx : execute init_works (clock world_bare) ["git"; "init"]%string
                 (deref world_bare os_environ) (fs world_bare)
               = (0, <[".git"%string := EmptyString]> (fs world_bare)))
    by (vm_compute; reflexivity).
  split; [reflexivity|]. split; [reflexivity|]. split; [exact Hx|].
  exact (successful_init_is_followed_by_generation init_works world_bare _
           eq_refl eq_refl Hx).
Defined.

Lemma script_runs_only_git_witness :
  Ran ["git"; "init"]%string (deref world_bare os_environ) true false
      (Some (0, <[".git"%string := EmptyString]> (fs world_bare)))
    ∈ events (main init_works world_bare)
  /\ true = true.
Proof.
  assert (Hin : Ran ["git"; "init"]%string (deref world_bare os_environ)
                    true false
                    (Some (0, <[".git"%string := EmptyString]> (fs world_bare)))
                  ∈ events (main init_works world_bare))
    by (apply list_elem_of_lookup_2 with 1%nat; vm_compute; reflexivity).
  split; [exact Hin|].
  destruct (script_runs_only_git init_works world_bare _ _ _ _ _ Hin)
    as [Hso _].
  exact Hso.
Defined.

End FurtherRuns.
